(** * Radar diagram: a shallow embedding of [radar_diagram.py]

    The module under study draws a radar (spider) chart with matplotlib.
    Its own code is small: the class [RadarDiagram] with [radar_factory]
    (which builds and registers the projection class [RadarAxes]) and
    [draw].  Everything else is a call into numpy or matplotlib.

    Modelling choices.
    - Numbers.  The arrays of the source hold numpy int64 or float64
      values ([num]).  An int64 is an integer, and its arithmetic wraps
      around at 64 bits.  A float64 is nan or a finite value, held as the
      rational it denotes; [np.pi] is the rational value of the float64
      constant.  Arithmetic on finite floats is exact here: rounding,
      overflow and the infinities are outside the model.  A comparison
      with nan is false, so that [nan != nan] holds.
    - Arrays.  A one-dimensional array is the list of its numbers, which
      are all int64 or all float64.  Where the source makes one array of
      numbers of both kinds ([np.asarray] in the reductions over the
      data, [set_rgrids]), the integers are converted to floats
      ([np.array]).
    - Effects.  Python objects are mutable and exceptions do not roll back
      what was done before them, so every method is a state transformer
      [S -> S * result A]: the state after the call together with either a
      value or the exception raised.
    - Library calls.  numpy and matplotlib functions are modelled by what
      they record in the object they are called on and by the exceptions
      their documentation gives for ill-shaped arguments.  The text of a
      library exception is abbreviated; only its class matters below.
    - Files.  Whether [savefig] can write under a file name, and under
      which path, depends on the installed backends and on the file
      system; the pyplot state carries this as [savefig_outcome].  The
      rendering itself (fonts, the layout of texts) is outside the
      model. *)

From Stdlib Require Import String ZArith QArith Qminmax Qround Lqa Lia Bool
  List.
Import ListNotations.

Open Scope string_scope.
Open Scope list_scope.
Open Scope Q_scope.

Set Implicit Arguments.

(* ------------------------------------------------------------------ *)
(** ** Exceptions and the state-and-exception monad *)

Inductive exn_class : Type :=
| ValueError
| IndexError
| OSError
| RuntimeError.

Record exn : Type := Exn { exn_type : exn_class; exn_msg : string }.

Inductive result (A : Type) : Type :=
| Ok (a : A)
| Raise (e : exn).

Arguments Ok {A} a.
Arguments Raise {A} e.

(** [raises c r]: the outcome [r] is an exception of class [c]. *)
Definition raises {A} (c : exn_class) (r : result A) : Prop :=
  exists msg, r = Raise (Exn c msg).

Definition is_ok {A} (r : result A) : bool :=
  match r with Ok _ => true | Raise _ => false end.

Definition exn_class_eqb (a b : exn_class) : bool :=
  match a, b with
  | ValueError, ValueError | IndexError, IndexError
  | OSError, OSError | RuntimeError, RuntimeError => true
  | _, _ => false
  end.

(** [raisesb] is the executable form of [raises]. *)
Definition raisesb {A} (c : exn_class) (r : result A) : bool :=
  match r with
  | Ok _ => false
  | Raise e => exn_class_eqb (exn_type e) c
  end.

Definition rbind {A B} (r : result A) (k : A -> result B) : result B :=
  match r with
  | Ok a => k a
  | Raise e => Raise e
  end.

Definition M (S A : Type) : Type := S -> S * result A.

Definition ret {S A} (a : A) : M S A := fun s => (s, Ok a).

Definition bind {S A B} (m : M S A) (k : A -> M S B) : M S B :=
  fun s =>
    match m s with
    | (s', Ok a) => k a s'
    | (s', Raise e) => (s', Raise e)
    end.

(** A pure, possibly failing computation run inside a method. *)
Definition lift {S A} (r : result A) : M S A := fun s => (s, r).

Definition modify {S} (f : S -> S) : M S unit := fun s => (f s, Ok tt).

Declare Scope py_scope.
Delimit Scope py_scope with py.

Notation "x <- m ;; k" := (bind m (fun x => k))
  (at level 61, m at next level, right associativity) : py_scope.
Notation "m ;; k" := (bind m (fun _ => k))
  (at level 61, right associativity) : py_scope.
Notation "x <~ r ;; k" := (rbind r (fun x => k))
  (at level 61, r at next level, right associativity) : py_scope.

Open Scope py_scope.

(** [for ind, i in enumerate(l): body(ind, i)], counting from [ind]. *)
Fixpoint for_enumerate {S A} (body : nat -> A -> M S unit)
         (ind : nat) (l : list A) : M S unit :=
  match l with
  | [] => ret tt
  | i :: rest => body ind i ;; for_enumerate body (Datatypes.S ind) rest
  end.

(** [for x in l: body(x)]. *)
Fixpoint for_each {S A} (body : A -> M S unit) (l : list A) : M S unit :=
  match l with
  | [] => ret tt
  | x :: rest => body x ;; for_each body rest
  end.

(** Running a method of the [i]-th element of a list held in the state:
    the element is updated in place.  References are positions; a position
    outside the list cannot arise from the code and is reported as a
    [RuntimeError] of the model. *)
Definition stale {A} : result A := Raise (Exn RuntimeError "stale reference").

Fixpoint set_nth {A} (i : nat) (a : A) (l : list A) : list A :=
  match l, i with
  | [], _ => []
  | _ :: t, O => a :: t
  | h :: t, Datatypes.S j => h :: set_nth j a t
  end.

Definition at_index {S A} (i : nat) (m : M S A) : M (list S) A :=
  fun l =>
    match nth_error l i with
    | Some s => let (s', r) := m s in (set_nth i s' l, r)
    | None => (l, stale)
    end.

(** Python's [l[ind]] on a list. *)
Definition list_getitem {A} (l : list A) (ind : nat) : result A :=
  match nth_error l ind with
  | Some a => Ok a
  | None => Raise (Exn IndexError "list index out of range")
  end.

(* ------------------------------------------------------------------ *)
(** ** Numbers *)

(** A number as numpy holds it: an int64, a finite float64 (the rational
    it denotes) or the float64 nan.  [Int64 z] stands for an integer that
    fits 64 bits, [- 2^63 <= z < 2^63]. *)
Inductive num : Type :=
| Int64 (z : Z)
| Float64 (q : Q)
| NaN.

(** The 64-bit two's complement value of an integer. *)
Definition wrap64 (z : Z) : Z := ((z + 2 ^ 63) mod 2 ^ 64 - 2 ^ 63)%Z.

Module Num.

(** The value of a number other than nan. *)
Definition value (n : num) : option Q :=
  match n with
  | Int64 z => Some (inject_Z z)
  | Float64 q => Some q
  | NaN => None
  end.

Definition is_int (n : num) : bool :=
  match n with
  | Int64 _ => true
  | _ => false
  end.

(** Conversion to float64. *)
Definition to_float (n : num) : num :=
  match n with
  | Int64 z => Float64 (inject_Z z)
  | _ => n
  end.

(** [a + b] and [a * b]: two int64 give an int64, wrapped around;
    otherwise the result is a float64, nan when an operand is. *)
Definition add (a b : num) : num :=
  match a, b with
  | Int64 x, Int64 y => Int64 (wrap64 (x + y))
  | _, _ =>
      match value a, value b with
      | Some p, Some q => Float64 (p + q)
      | _, _ => NaN
      end
  end.

Definition mul (a b : num) : num :=
  match a, b with
  | Int64 x, Int64 y => Int64 (wrap64 (x * y))
  | _, _ =>
      match value a, value b with
      | Some p, Some q => Float64 (p * q)
      | _, _ => NaN
      end
  end.

(** [a / c] for a Python integer [c] other than 0: true division, always
    a float64. *)
Definition truediv (a : num) (c : Z) : num :=
  match value a with
  | Some p => Float64 (p / inject_Z c)
  | None => NaN
  end.

(** [a == b], [a != b] and [a <= b]: by value; a comparison with nan is
    false, so [a != b] is true then. *)
Definition eqb (a b : num) : bool :=
  match value a, value b with
  | Some p, Some q => Qeq_bool p q
  | _, _ => false
  end.

Definition ne (a b : num) : bool := negb (eqb a b).


(** The smaller and the larger of two numbers, as a reduction takes
    them: nan when either is nan. *)
Definition min (a b : num) : num :=
  match a, b with
  | Int64 x, Int64 y => Int64 (Z.min x y)
  | _, _ =>
      match value a, value b with
      | Some p, Some q => Float64 (Qmin p q)
      | _, _ => NaN
      end
  end.

Definition max (a b : num) : num :=
  match a, b with
  | Int64 x, Int64 y => Int64 (Z.max x y)
  | _, _ =>
      match value a, value b with
      | Some p, Some q => Float64 (Qmax p q)
      | _, _ => NaN
      end
  end.

End Num.

(* ------------------------------------------------------------------ *)
(** ** numpy *)

Module np.

(** [np.pi]: the float64 nearest to pi, as the rational it denotes. *)
Definition pi : Q := 884279719003555 # 281474976710656.

(** [np.linspace(start, stop, num, endpoint=False)]: [num] float64
    samples [start + k * step] with [step = (stop - start) / num]; a
    negative [num] is a [ValueError]. *)
Definition linspace : Q -> Q -> Z -> result (list num) :=
  fun start stop num =>
  if (num <? 0)%Z then
    Raise (Exn ValueError "Number of samples must be non-negative")
  else
    let step := (stop - start) / inject_Z num in
    Ok (map (fun k => Float64 (inject_Z (Z.of_nat k) * step + start))
            (seq 0 (Z.to_nat num))).

(** [np.degrees(x)], elementwise: float64 values. *)
Definition degrees (x : list num) : list num :=
  map (fun r =>
         match Num.value r with
         | Some q => Float64 (q * 180 / pi)
         | None => NaN
         end) x.

(** [np.append(x, v)] returns a new array: [x] followed by [v]. *)
Definition append (x : list num) (v : num) : list num := (x ++ [v])%list.

Definition out_of_bounds {A} : result A :=
  Raise (Exn IndexError "index is out of bounds for axis 0").

(** [x[0]] on a one-dimensional array. *)
Definition first (x : list num) : result num :=
  match x with
  | [] => out_of_bounds
  | v :: _ => Ok v
  end.

(** [x[-1]] on a one-dimensional array. *)
Fixpoint last (x : list num) : result num :=
  match x with
  | [] => out_of_bounds
  | [v] => Ok v
  | _ :: t => last t
  end.

(** The array of a sequence of numbers: int64 when all of them are
    integers, float64 otherwise. *)
Definition array (l : list num) : list num :=
  if forallb Num.is_int l then l else map Num.to_float l.

(** Conversion of a list of series to a two-dimensional array, as every
    reduction below starts with: the rows must have one length.  The
    result is the array's elements in row order. *)
Definition asarray (data : list (list num)) : result (list num) :=
  match data with
  | [] => Ok []
  | row :: rows =>
      if forallb (fun r => Nat.eqb (List.length r) (List.length row)) rows
      then Ok (array (concat data))
      else Raise (Exn ValueError "inhomogeneous shape")
  end.

Definition zero_size {A} : result A :=
  Raise (Exn ValueError "zero-size array to reduction operation").

(** [np.min(data)]: the least element, nan when one element is; no
    element is a [ValueError]. *)
Definition min (data : list (list num)) : result num :=
  a <~ asarray data ;;
  match a with
  | [] => zero_size
  | v :: t => Ok (fold_left Num.min t v)
  end.

(** [np.max(data)]. *)
Definition max (data : list (list num)) : result num :=
  a <~ asarray data ;;
  match a with
  | [] => zero_size
  | v :: t => Ok (fold_left Num.max t v)
  end.

(** The sum of the values, taken in float64: nan when one element is. *)
Definition total (a : list num) : num :=
  fold_left (fun s v => Num.add s (Num.to_float v)) a (Float64 0).

(** [np.average(data)]: the mean of all elements, a float64.  On an
    array without elements numpy warns and returns nan. *)
Definition average (data : list (list num)) : result num :=
  a <~ asarray data ;;
  match a with
  | [] => Ok NaN
  | _ => Ok (Num.truediv (total a) (Z.of_nat (List.length a)))
  end.

End np.

(* ------------------------------------------------------------------ *)
(** ** matplotlib: the objects the module creates *)

Definition point : Type := (Q * Q)%type.

(** [matplotlib.transforms.Affine2D]: the first two rows of the 3x3
    matrix; [scale] and [translate] update it as the library does. *)
Module Affine2D.

Record t : Type := Mtx {
  m00 : Q; m01 : Q; m02 : Q;
  m10 : Q; m11 : Q; m12 : Q
}.

(** [Affine2D()]: the identity. *)
Definition identity : t := Mtx 1 0 0 0 1 0.

(** [.scale(s)]: both rows are multiplied by [s]. *)
Definition scale (s : Q) (m : t) : t :=
  Mtx (m00 m * s) (m01 m * s) (m02 m * s)
      (m10 m * s) (m11 m * s) (m12 m * s).

(** [.translate(tx, ty)]. *)
Definition translate (tx ty : Q) (m : t) : t :=
  Mtx (m00 m) (m01 m) (m02 m + tx)
      (m10 m) (m11 m) (m12 m + ty).

Definition transform_point (m : t) (p : point) : point :=
  (m00 m * fst p + m01 m * snd p + m02 m,
   m10 m * fst p + m11 m * snd p + m12 m).

End Affine2D.

(** A transform is an affine map, the axes' own [transAxes], or a
    composition [a + b], which applies [a] first and then [b]. *)
Inductive Transform : Type :=
| Affine (m : Affine2D.t)
| transAxes
| Composite (a b : Transform).

(** The meaning of a transform, given the map [transAxes] stands for
    (axes coordinates to display coordinates, fixed by the layout). *)
Fixpoint transform (axes_to_display : point -> point)
         (t : Transform) (p : point) : point :=
  match t with
  | Affine m => Affine2D.transform_point m p
  | transAxes => axes_to_display p
  | Composite a b =>
      transform axes_to_display b (transform axes_to_display a p)
  end.

Inductive Patch : Type :=
| Circle (center : point) (radius : Q)
| RegularPolygon (center : point) (numVertices : Z) (radius : Q)
                 (edgecolor : string).

Inductive Path : Type :=
| unit_regular_polygon (numVertices : Z).

Record Spine : Type := {
  spine_type : string;
  spine_path : Path;
  spine_transform : Transform
}.

(** What [_gen_axes_spines] returns: the dictionary built by [PolarAxes]
    itself, or a dictionary of the module's own. *)
Inductive Spines : Type :=
| PolarSpines
| SpineDict (d : list (string * Spine)).

Record Line2D : Type := {
  xdata : list num;
  ydata : list num;
  color : string
}.

Record Polygon : Type := {
  poly_x : list num;
  poly_y : list num;
  closed : bool
}.

(** A legend: [legend_labels] are the texts it shows. *)
Record Legend : Type := {
  legend_labels : list string;
  legend_loc : point;
  labelspacing : Q;
  legend_fontsize : string
}.

Record Text : Type := {
  text_x : Q;
  text_y : Q;
  text_s : string;
  horizontalalignment : string;
  text_color : string;
  weight : string;
  size : string
}.

(** The class [RadarAxes] is created inside [radar_factory]; its methods
    read [num_vars], [frame] and [theta] from the enclosing call. *)
Record RadarAxesClass : Type := {
  name : string;
  RESOLUTION : Z;
  num_vars : Z;
  frame : string;
  theta : list num
}.

(** The state of one axes object. *)
Record Axes : Type := {
  ax_class : RadarAxesClass;
  ax_spines : Spines;
  ax_patch : Patch;
  theta_zero_location : string;
  ax_lines : list Line2D;
  ax_polygons : list Polygon;
  ax_rgrids : option (list num);
  ax_thetagrids : option (list num * list string);
  ax_legend : option Legend
}.

Definition with_lines (f : list Line2D -> list Line2D) (ax : Axes) : Axes :=
  {| ax_class := ax_class ax; ax_spines := ax_spines ax;
     ax_patch := ax_patch ax;
     theta_zero_location := theta_zero_location ax;
     ax_lines := f (ax_lines ax); ax_polygons := ax_polygons ax;
     ax_rgrids := ax_rgrids ax; ax_thetagrids := ax_thetagrids ax;
     ax_legend := ax_legend ax |}.

Definition with_polygons (f : list Polygon -> list Polygon) (ax : Axes)
  : Axes :=
  {| ax_class := ax_class ax; ax_spines := ax_spines ax;
     ax_patch := ax_patch ax;
     theta_zero_location := theta_zero_location ax;
     ax_lines := ax_lines ax; ax_polygons := f (ax_polygons ax);
     ax_rgrids := ax_rgrids ax; ax_thetagrids := ax_thetagrids ax;
     ax_legend := ax_legend ax |}.

Definition with_rgrids (r : list num) (ax : Axes) : Axes :=
  {| ax_class := ax_class ax; ax_spines := ax_spines ax;
     ax_patch := ax_patch ax;
     theta_zero_location := theta_zero_location ax;
     ax_lines := ax_lines ax; ax_polygons := ax_polygons ax;
     ax_rgrids := Some r; ax_thetagrids := ax_thetagrids ax;
     ax_legend := ax_legend ax |}.

Definition with_thetagrids (g : list num * list string) (ax : Axes)
  : Axes :=
  {| ax_class := ax_class ax; ax_spines := ax_spines ax;
     ax_patch := ax_patch ax;
     theta_zero_location := theta_zero_location ax;
     ax_lines := ax_lines ax; ax_polygons := ax_polygons ax;
     ax_rgrids := ax_rgrids ax; ax_thetagrids := Some g;
     ax_legend := ax_legend ax |}.

Definition with_legend (l : Legend) (ax : Axes) : Axes :=
  {| ax_class := ax_class ax; ax_spines := ax_spines ax;
     ax_patch := ax_patch ax;
     theta_zero_location := theta_zero_location ax;
     ax_lines := ax_lines ax; ax_polygons := ax_polygons ax;
     ax_rgrids := ax_rgrids ax; ax_thetagrids := ax_thetagrids ax;
     ax_legend := Some l |}.

(** A method of the line at position [line] of the axes. *)
Definition on_line {A} (line : nat) (m : M Line2D A) : M Axes A :=
  fun ax =>
    let (ls, r) := at_index line m (ax_lines ax) in
    (with_lines (fun _ => ls) ax, r).

(* ------------------------------------------------------------------ *)
(** ** matplotlib: the methods [RadarAxes] inherits from [PolarAxes] *)

Module Line.

(** [line.get_data()]. *)
Definition get_data : M Line2D (list num * list num) :=
  fun line => (line, Ok (xdata line, ydata line)).

(** [line.set_data(x, y)]. *)
Definition set_data (x y : list num) : M Line2D unit :=
  modify (fun line => {| xdata := x; ydata := y; color := color line |}).

End Line.

Module PolarAxes.

Definition shape_mismatch {A} : result A :=
  Raise (Exn ValueError "x and y must have same first dimension").

(** [plot(x, y, color=c)] with one-dimensional [x] and [y]: one new
    line, which the call returns in a list; [x] and [y] of different
    lengths are a [ValueError]. *)
Definition plot (x y : list num) (c : string) : M Axes (list nat) :=
  fun ax =>
    if Nat.eqb (length x) (length y) then
      (with_lines
         (fun ls => ls ++ [{| xdata := x; ydata := y; color := c |}])%list
         ax,
       Ok [length (ax_lines ax)])
    else (ax, shape_mismatch).

(** [fill(x, y, closed=closed)]: one new polygon. *)
Definition fill (x y : list num) (closed : bool) : M Axes (list nat) :=
  fun ax =>
    if Nat.eqb (length x) (length y) then
      (with_polygons
         (fun ps =>
            ps ++ [{| poly_x := x; poly_y := y; closed := closed |}])%list
         ax,
       Ok [length (ax_polygons ax)])
    else (ax, shape_mismatch).

(** [set_rgrids(radii)]: the radii are kept as an array. *)
Definition set_rgrids (radii : list num) : M Axes unit :=
  modify (with_rgrids (np.array radii)).

(** [set_thetagrids(angles, labels)]: the tick positions become
    [angles]; a non-empty [labels] must have one label per angle. *)
Definition set_thetagrids (angles : list num) (labels : list string)
  : M Axes unit :=
  fun ax =>
    if Nat.eqb (length labels) (length angles)
       || Nat.eqb (length labels) 0
    then (with_thetagrids (angles, labels) ax, Ok tt)
    else
      (with_thetagrids (angles, []) ax,
       Raise (Exn ValueError
                  "the number of labels does not match the ticks")).

(** [legend(labels, loc=..., labelspacing=..., fontsize=...)]: the labels
    are paired, in order, with the lines and polygons on the axes, so
    the legend shows as many of the labels as there are such artists. *)
Definition legend (labels : list string) (loc : point)
           (labelspacing : Q) (fontsize : string) : M Axes Legend :=
  fun ax =>
    let artists := (length (ax_lines ax) + length (ax_polygons ax))%nat in
    let l := {| legend_labels := firstn artists labels; legend_loc := loc;
                labelspacing := labelspacing;
                legend_fontsize := fontsize |} in
    (with_legend l ax, Ok l).

End PolarAxes.

(* ------------------------------------------------------------------ *)
(** ** The class [RadarAxes] *)

Module RadarAxes.

(** [_gen_axes_patch]: the axes patch is centred at (0.5, 0.5) and has
    radius 0.5 in axes coordinates. *)
Definition _gen_axes_patch (cls : RadarAxesClass) : result Patch :=
  if String.eqb (frame cls) "circle" then
    Ok (Circle (1 # 2, 1 # 2) (1 # 2))
  else if String.eqb (frame cls) "polygon" then
    Ok (RegularPolygon (1 # 2, 1 # 2) (num_vars cls) (1 # 2) "k")
  else
    Raise (Exn ValueError
               (String.append "Unknown value for 'frame': " (frame cls))).

(** The transform given to the polygon spine:
    [Affine2D().scale(.5).translate(.5, .5) + self.transAxes]. *)
Definition spine_affine : Affine2D.t :=
  Affine2D.translate (1 # 2) (1 # 2)
    (Affine2D.scale (1 # 2) Affine2D.identity).

Definition polygon_spine_transform : Transform :=
  Composite (Affine spine_affine) transAxes.

(** [_gen_axes_spines]: the inherited spines for the circle, one spine
    along the unit regular polygon for the polygon. *)
Definition _gen_axes_spines (cls : RadarAxesClass) : result Spines :=
  if String.eqb (frame cls) "circle" then
    Ok PolarSpines
  else if String.eqb (frame cls) "polygon" then
    let spine :=
      {| spine_type := "circle";
         spine_path := unit_regular_polygon (num_vars cls);
         spine_transform := polygon_spine_transform |} in
    Ok (SpineDict [("polar", spine)])
  else
    Raise (Exn ValueError
               (String.append "Unknown value for 'frame': " (frame cls))).

(** [__init__]: the inherited constructor asks the class for its spines
    and its patch; the plot is then rotated so that the first axis is at
    the top. *)
Definition __init__ (cls : RadarAxesClass) : result Axes :=
  spines <~ _gen_axes_spines cls ;;
  patch <~ _gen_axes_patch cls ;;
  Ok {| ax_class := cls; ax_spines := spines; ax_patch := patch;
        theta_zero_location := "N";
        ax_lines := []; ax_polygons := [];
        ax_rgrids := None; ax_thetagrids := None; ax_legend := None |}.

(** [fill]: the keyword argument [closed] defaults to [True]; [None]
    is the omitted argument. *)
Definition fill (x y : list num) (closed : option bool)
  : M Axes (list nat) :=
  let closed := match closed with Some b => b | None => true end in
  PolarAxes.fill x y closed.

(** [_close_line(line)]: the test is [x[0] != x[-1]]; indexing an empty
    array raises [IndexError]. *)
Definition _close_line : M Line2D unit :=
  xy <- Line.get_data ;;
  let '(x, y) := xy in
  x0 <- lift (np.first x) ;;
  xl <- lift (np.last x) ;;
  if Num.ne x0 xl then
    x0 <- lift (np.first x) ;;
    let x := np.append x x0 in
    y0 <- lift (np.first y) ;;
    let y := np.append y y0 in
    Line.set_data x y
  else ret tt.

(** [plot], called as [plot(x, y, color=c)]: the inherited [plot], then
    every line it returned is closed.  The method returns nothing. *)
Definition plot (x y : list num) (c : string) : M Axes unit :=
  lines <- PolarAxes.plot x y c ;;
  for_each (fun line => on_line line _close_line) lines.

(** [set_varlabels(labels)]: [theta] is the array of the enclosing
    [radar_factory] call. *)
Definition set_varlabels (labels : list string) : M Axes unit :=
  fun self =>
    PolarAxes.set_thetagrids (np.degrees (theta (ax_class self))) labels
                             self.

End RadarAxes.

(* ------------------------------------------------------------------ *)
(** ** pyplot: figures, the projection registry and saved files *)

Record SubplotParams : Type := {
  wspace : Q; hspace : Q; top : Q; bottom : Q
}.

Record Figure : Type := {
  figsize : Q * Q;
  fig_axes : option Axes;
  fig_adjust : option SubplotParams;
  fig_texts : list Text
}.

(** What [savefig] does with a file name: it writes the file under a
    path, or the format (taken from the name) is not supported, or the
    path cannot be written. *)
Inductive save_outcome : Type :=
| SavedAs (path : string)
| UnsupportedFormat
| NotWritable.

(** The pyplot state: the registered projections, the open figures, the
    files written (path and figure as saved), and the answer of the
    backends and the file system to each file name. *)
Record World : Type := {
  projections : list (string * RadarAxesClass);
  figures : list Figure;
  files : list (string * Figure);
  savefig_outcome : string -> save_outcome
}.

Definition with_figures (f : list Figure -> list Figure) (w : World)
  : World :=
  {| projections := projections w; figures := f (figures w);
     files := files w; savefig_outcome := savefig_outcome w |}.

(** [register_projection(cls)]: the class is stored under its [name],
    in front of (and so hiding) an earlier class of that name. *)
Definition register_projection (cls : RadarAxesClass) : M World unit :=
  modify (fun w =>
            {| projections := (name cls, cls) :: projections w;
               figures := figures w; files := files w;
               savefig_outcome := savefig_outcome w |}).

Fixpoint get_projection_class (projection : string)
         (reg : list (string * RadarAxesClass)) : result RadarAxesClass :=
  match reg with
  | [] => Raise (Exn ValueError "Unknown projection")
  | (n, cls) :: rest =>
      if String.eqb n projection then Ok cls
      else get_projection_class projection rest
  end.

(** A method of the figure with handle [fig]. *)
Definition on_fig {A} (fig : nat) (m : M Figure A) : M World A :=
  fun w =>
    let (fs, r) := at_index fig m (figures w) in
    (with_figures (fun _ => fs) w, r).

(** A method of the axes of the figure with handle [axs]. *)
Definition on_axes {A} (axs : nat) (m : M Axes A) : M World A :=
  on_fig axs
    (fun f =>
       match fig_axes f with
       | Some ax =>
           let (ax', r) := m ax in
           ({| figsize := figsize f; fig_axes := Some ax';
               fig_adjust := fig_adjust f; fig_texts := fig_texts f |}, r)
       | None => (f, stale)
       end).

Module plt.

(** [plt.subplots(figsize=..., subplot_kw=dict(projection=...))]: a new
    figure with one axes of the registered class.  The figure exists
    even when building the axes raises.  The call returns the handles of
    the figure and of its axes. *)
Definition subplots (figsize : Q * Q) (projection : string)
  : M World (nat * nat) :=
  fun w =>
    let h := length (figures w) in
    let fig ax := {| figsize := figsize; fig_axes := ax;
                     fig_adjust := None; fig_texts := [] |} in
    match
      cls <~ get_projection_class projection (projections w) ;;
      RadarAxes.__init__ cls
    with
    | Ok ax =>
        (with_figures (fun fs => fs ++ [fig (Some ax)])%list w, Ok (h, h))
    | Raise e =>
        (with_figures (fun fs => fs ++ [fig None])%list w, Raise e)
    end.

End plt.

Module Fig.

(** [fig.subplots_adjust(wspace=, hspace=, top=, bottom=)]. *)
Definition subplots_adjust (wspace hspace top bottom : Q)
  : M Figure unit :=
  modify (fun f =>
            {| figsize := figsize f; fig_axes := fig_axes f;
               fig_adjust := Some {| wspace := wspace; hspace := hspace;
                                     top := top; bottom := bottom |};
               fig_texts := fig_texts f |}).

(** [fig.text(x, y, s, ...)]. *)
Definition text (t : Text) : M Figure unit :=
  modify (fun f =>
            {| figsize := figsize f; fig_axes := fig_axes f;
               fig_adjust := fig_adjust f;
               fig_texts := (fig_texts f ++ [t])%list |}).

(** [fig.savefig(filename)]: the file holds the figure as it is at the
    time of the call.  An unsupported format is a [ValueError], a path
    that cannot be written an [OSError]; nothing is written then. *)
Definition savefig (fig : nat) (filename : string) : M World unit :=
  fun w =>
    match nth_error (figures w) fig with
    | Some f =>
        match savefig_outcome w filename with
        | SavedAs path =>
            ({| projections := projections w; figures := figures w;
                files := (files w ++ [(path, f)])%list;
                savefig_outcome := savefig_outcome w |}, Ok tt)
        | UnsupportedFormat =>
            (w, Raise (Exn ValueError "Format is not supported"))
        | NotWritable =>
            (w, Raise (Exn OSError "the file cannot be written"))
        end
    | None => (w, stale)
    end.

End Fig.

(* ------------------------------------------------------------------ *)
(** ** The class [RadarDiagram] *)

Module RadarDiagram.

(** [radar_factory(num_vars, frame)]: the angles, the class [RadarAxes]
    closed over [num_vars], [frame] and the angles, its registration. *)
Definition radar_factory (num_vars : Z) (frame : string)
  : M World (list num) :=
  (* calculate evenly-spaced axis angles *)
  theta <- lift (np.linspace 0 (2 * np.pi) num_vars) ;;
  let RadarAxes :=
    {| name := "radar"; RESOLUTION := 1;
       num_vars := num_vars; frame := frame; theta := theta |} in
  register_projection RadarAxes ;;
  ret theta.

(** [colors] and [labels] are local constants of [draw]. *)
Definition colors : list string := ["b"; "r"].

Definition legend_labels : list string :=
  [ "Начальные вычисления";
    "Вычисления через 1/4 проходов";
    "Вычисления через 3/4 проходов";
    "Конечные вычисления" ].

(** The argument of [set_rgrids] in [draw]. *)
Definition rgrid_levels (data : list (list num)) : result (list num) :=
  a <~ np.min data ;;
  b1 <~ np.min data ;;
  b2 <~ np.max data ;;
  c <~ np.max data ;;
  d <~ np.max data ;;
  Ok [a; Num.truediv (Num.add b1 b2) 2;
      Num.truediv (Num.mul c (Int64 3)) 4; d].

(** The loop of [draw] over the data series. *)
Definition plot_series (axs : nat) (theta : list num)
           (data : list (list num)) : M World unit :=
  for_enumerate
    (fun ind i =>
       c <- lift (list_getitem colors ind) ;;
       on_axes axs (RadarAxes.plot theta i c))
    0 data.

(** [draw(filename, data, label, title)]. *)
Definition draw (filename : string) (data : list (list num))
           (label : list string) (title : string) : M World unit :=
  let N := 28%Z in
  theta <- radar_factory N "polygon" ;;
  let spoke_labels := label in
  fa <- plt.subplots (12, 12) "radar" ;;
  let '(fig, axs) := fa in
  on_fig fig (Fig.subplots_adjust 1 1 (85 # 100) (5 # 100)) ;;
  _ <- lift (np.average data) ;;
  levels <- lift (rgrid_levels data) ;;
  on_axes axs (PolarAxes.set_rgrids levels) ;;
  plot_series axs theta data ;;
  on_axes axs (RadarAxes.set_varlabels spoke_labels) ;;
  legend <- on_axes axs
              (PolarAxes.legend legend_labels (- (13 # 100), 99 # 100)
                                (1 # 10) "medium") ;;
  on_fig fig
    (Fig.text {| text_x := 1 # 2; text_y := 965 # 1000; text_s := title;
                 horizontalalignment := "center";
                 text_color := "black"; weight := "bold";
                 size := "large" |}) ;;
  Fig.savefig fig filename.

End RadarDiagram.

(* ------------------------------------------------------------------ *)
(** ** Notions used in the statements *)

Unset Implicit Arguments.

(** A point of a line: its x and its y value. *)
Definition data_point : Type := (num * num)%type.

(** The first and the last point of a line, when it has any. *)
Definition first_point (line : Line2D) : option data_point :=
  match np.first (xdata line), np.first (ydata line) with
  | Ok x, Ok y => Some (x, y)
  | _, _ => None
  end.

Definition last_point (line : Line2D) : option data_point :=
  match np.last (xdata line), np.last (ydata line) with
  | Ok x, Ok y => Some (x, y)
  | _, _ => None
  end.

(** Python's [==] on points: both coordinates compare equal. *)
Definition point_eqb (p q : data_point) : bool :=
  Num.eqb (fst p) (fst q) && Num.eqb (snd p) (snd q).


(** An integer that fits 64 bits. *)
Definition fits64 (z : Z) : bool :=
  ((- 2 ^ 63 <=? z) && (z <? 2 ^ 63))%Z.

(** A number that is not nan and, when an int64, is within its range. *)
Definition regular (v : num) : bool :=
  match v with
  | Int64 z => fits64 z
  | Float64 _ => true
  | NaN => false
  end.




(** The class [draw] registers, and the axes [plt.subplots] builds from
    it. *)
Definition theta28 : list num :=
  match np.linspace 0 (2 * np.pi) 28 with
  | Ok t => t
  | Raise _ => []
  end.

Definition radar28 : RadarAxesClass :=
  {| name := "radar"; RESOLUTION := 1; num_vars := 28;
     frame := "polygon"; theta := theta28 |}.

Definition axes28 : Axes :=
  {| ax_class := radar28;
     ax_spines :=
       SpineDict [("polar",
                   {| spine_type := "circle";
                      spine_path := unit_regular_polygon 28;
                      spine_transform :=
                        RadarAxes.polygon_spine_transform |})];
     ax_patch := RegularPolygon (1 # 2, 1 # 2) 28 (1 # 2) "k";
     theta_zero_location := "N";
     ax_lines := []; ax_polygons := [];
     ax_rgrids := None; ax_thetagrids := None; ax_legend := None |}.

(** A sample environment: three file names can be written as they are,
    the format of 'radar.xyz' is not supported, and no other path can be
    written. *)
Definition sample_outcome (filename : string) : save_outcome :=
  if existsb (String.eqb filename) ["radar.png"; "a.png"; "b.png"]
  then SavedAs filename
  else if String.eqb filename "radar.xyz" then UnsupportedFormat
       else NotWritable.

(** An empty pyplot state, in the sample environment. *)
Definition empty_world : World :=
  {| projections := []; figures := []; files := [];
     savefig_outcome := sample_outcome |}.

(** The legend [draw] leaves when [n] series are on the axes, and the
    title text it asks for. *)
Definition draw_legend (n : nat) : Legend :=
  {| legend_labels := firstn n RadarDiagram.legend_labels;
     legend_loc := (- (13 # 100), 99 # 100);
     labelspacing := 1 # 10;
     legend_fontsize := "medium" |}.

Definition title_text (title : string) : Text :=
  {| text_x := 1 # 2; text_y := 965 # 1000; text_s := title;
     horizontalalignment := "center"; text_color := "black";
     weight := "bold"; size := "large" |}.

(** The figure [draw] created: the last one of the pyplot state. *)
Definition drawn_figure (w : World) : option Figure :=
  nth_error (figures w) (pred (length (figures w))).

Definition drawn_axes (w : World) : option Axes :=
  match drawn_figure w with
  | Some f => fig_axes f
  | None => None
  end.

(** The texts of the legend on the axes [draw] created. *)
Definition drawn_legend_labels (w : World) : option (list string) :=
  match drawn_axes w with
  | Some ax => option_map legend_labels (ax_legend ax)
  | None => None
  end.

(** Inputs [draw] accepts: one or two series of 28 values each, and 28
    spoke labels (or none at all). *)
Definition valid_input (data : list (list num)) (label : list string)
  : Prop :=
  (1 <= length data <= 2)%nat
  /\ Forall (fun i => length i = 28%nat) data
  /\ (length label = 28%nat \/ label = []).

(** A valid call of [draw]: valid data and labels, no nan among the data
    and every integer within 64 bits, and a file name under which the
    figure can be written. *)
Definition valid_call (w : World) (filename : string)
           (data : list (list num)) (label : list string) : Prop :=
  valid_input data label
  /\ forallb (forallb regular) data = true
  /\ savefig_outcome w filename = SavedAs filename.

(** A class as [radar_factory] builds it, with frame [f]. *)
Definition class_of_frame (f : string) : RadarAxesClass :=
  {| name := "radar"; RESOLUTION := 1; num_vars := 5; frame := f;
     theta := [] |}.

(** Equality of points up to the equality of rationals. *)
Definition point_eq (p q : point) : Prop :=
  fst p == fst q /\ snd p == snd q.

(** The square of the distance between two points. *)
Definition dist2 (p q : point) : Q :=
  (fst p - fst q) * (fst p - fst q) + (snd p - snd q) * (snd p - snd q).

(** The figure of [draw]: its size and spacing are fixed, its axes and
    texts change as [draw] proceeds. *)
Definition draw_adjust : SubplotParams :=
  {| wspace := 1; hspace := 1; top := 85 # 100; bottom := 5 # 100 |}.

Definition draw_figure (ax : Axes) (adj : option SubplotParams)
           (txt : list Text) : Figure :=
  {| figsize := (12, 12); fig_axes := Some ax; fig_adjust := adj;
     fig_texts := txt |}.

(** What [savefig] returns and which files it writes, by the answer of
    the environment, for the figure [f]. *)
Definition save_result (o : save_outcome) : result unit :=
  match o with
  | SavedAs _ => Ok tt
  | UnsupportedFormat => Raise (Exn ValueError "Format is not supported")
  | NotWritable => Raise (Exn OSError "the file cannot be written")
  end.

Definition saved_files (o : save_outcome) (f : Figure)
  : list (string * Figure) :=
  match o with
  | SavedAs path => [(path, f)]
  | _ => []
  end.

(** The pyplot state after a call of [draw] that began in [w]: the class
    is registered, [f] is the new, last figure, and [saved] are the files
    the call wrote. *)
Definition after_draw (w : World) (f : Figure)
           (saved : list (string * Figure)) : World :=
  {| projections := ("radar", radar28) :: projections w;
     figures := figures w ++ [f];
     files := files w ++ saved;
     savefig_outcome := savefig_outcome w |}.

(** [draw] works on one figure only, so its statements can be read as
    methods of that figure's axes: [plot_loop] is the loop and [draw_axes]
    the statements from [np.average] to [axs.legend]. *)
Definition plot_loop (theta : list num) (ind : nat)
           (data : list (list num)) : M Axes unit :=
  for_enumerate
    (fun ind i =>
       c <- lift (list_getitem RadarDiagram.colors ind) ;;
       RadarAxes.plot theta i c)
    ind data.

Definition draw_axes (data : list (list num)) (label : list string)
  : M Axes Legend :=
  _ <- lift (np.average data) ;;
  levels <- lift (RadarDiagram.rgrid_levels data) ;;
  PolarAxes.set_rgrids levels ;;
  plot_loop theta28 0 data ;;
  RadarAxes.set_varlabels label ;;
  PolarAxes.legend RadarDiagram.legend_labels (- (13 # 100), 99 # 100)
                   (1 # 10) "medium".

(** The series [i] drawn in colour [c] against the 28 angles, closed. *)
Definition theta28_closed : list num :=
  np.append theta28 (hd (Float64 0) theta28).

Definition closed_series (i : list num) (c : string) : Line2D :=
  {| xdata := theta28_closed; ydata := np.append i (hd (Float64 0) i);
     color := c |}.

(** The axes of [draw] with the given lines, grids and legend. *)
Definition drawn (lines : list Line2D) (rg : option (list num))
           (tg : option (list num * list string)) (lg : option Legend)
  : Axes :=
  {| ax_class := radar28; ax_spines := ax_spines axes28;
     ax_patch := RegularPolygon (1 # 2, 1 # 2) 28 (1 # 2) "k";
     theta_zero_location := "N";
     ax_lines := lines; ax_polygons := [];
     ax_rgrids := rg; ax_thetagrids := tg; ax_legend := lg |}.

(** The lines of a successful [draw]: series [k] in colour [k]. *)
Definition plotted_lines (data : list (list num)) : list Line2D :=
  map (fun ic => closed_series (fst ic) (snd ic))
      (combine data RadarDiagram.colors).

(** Arrays of floats and of integers, from their values. *)
Definition floats (l : list Q) : list num := map Float64 l.

Definition ints (l : list Z) : list num := map Int64 l.

(** Sample inputs: a series of 28 floats, a series of 28 integers, two
    lists of 28 labels. *)
Definition series_a : list num :=
  map (fun k => Float64 (inject_Z (Z.of_nat k))) (seq 1 28).

Definition series_b : list num := ints (4 :: repeat 3 27)%Z.

Definition labels_a : list string := repeat "a" 28.

Definition labels_b : list string := repeat "b" 28.

(** [example_data()]: the spoke labels and one case, a title with its
    list of series.  The source returns them as a two-element list. *)
Definition example_data : list string * (string * list (list num)) :=
  (["Sulfate"; "Nitrate"; "EC"; "OC1"; "OC2"; "OC3"; "OP"; "CO"; "O3"],
   ("Basecase",
    [floats [88 # 100; 1 # 100; 3 # 100; 3 # 100; 0; 6 # 100; 1 # 100;
             0; 0]])).

(** Two calls of [draw], one after the other. *)
Definition draw_twice (filename1 : string) (data1 : list (list num))
           (label1 : list string) (title1 : string)
           (filename2 : string) (data2 : list (list num))
           (label2 : list string) (title2 : string) : M World unit :=
  RadarDiagram.draw filename1 data1 label1 title1 ;;
  RadarDiagram.draw filename2 data2 label2 title2.

(* ------------------------------------------------------------------ *)
(** ** Arrays and lists *)

Lemma first_app (x : list num) (v x0 : num) :
  np.first x = Ok x0 -> np.first (np.append x v) = Ok x0.
Proof. destruct x; simpl; [discriminate | trivial]. Qed.

Lemma last_app (x : list num) (v : num) : np.last (np.append x v) = Ok v.
Proof.
  unfold np.append.
  induction x as [|a x IH]; simpl; [reflexivity|].
  destruct (x ++ [v]) eqn:E; [destruct x; discriminate | exact IH].
Qed.

Lemma first_last_some (x : list num) (x0 : num) :
  np.first x = Ok x0 -> exists xl, np.last x = Ok xl.
Proof.
  destruct x as [|a x]; [discriminate | intros _].
  revert a. induction x as [|b x IH]; intros a.
  - exists a. reflexivity.
  - destruct (IH b) as [xl Hxl]. exists xl. exact Hxl.
Qed.

Lemma first_of_length (x y : list num) (x0 : num) :
  np.first x = Ok x0 -> length x = length y ->
  exists y0, np.first y = Ok y0.
Proof.
  destruct x, y; simpl; try discriminate; eauto.
Qed.

Lemma nth_error_snoc {A} (l : list A) (a : A) :
  nth_error (l ++ [a]) (length l) = Some a.
Proof. induction l; simpl; auto. Qed.

Lemma set_nth_snoc {A} (l : list A) (a b : A) :
  set_nth (length l) b (l ++ [a]) = l ++ [b].
Proof. induction l; simpl; congruence. Qed.

Lemma Qeq_bool_refl (q : Q) : Qeq_bool q q = true.
Proof. apply Qeq_bool_iff. reflexivity. Qed.

(* ------------------------------------------------------------------ *)
(** ** Comparing numbers *)

(** Every number but nan compares equal to itself. *)
Lemma num_eqb_refl (v : num) : v <> NaN -> Num.eqb v v = true.
Proof.
  destruct v; intros H; unfold Num.eqb; simpl;
    [apply Qeq_bool_refl | apply Qeq_bool_refl | congruence].
Qed.

Lemma num_ne_self (v : num) : Num.ne v v = true <-> v = NaN.
Proof.
  unfold Num.ne. split.
  - destruct v; unfold Num.eqb; simpl; rewrite ?Qeq_bool_refl;
      [discriminate | discriminate | reflexivity].
  - intros ->. reflexivity.
Qed.

Lemma num_ne_eqb (a b : num) : Num.ne a b = true <-> Num.eqb a b = false.
Proof. unfold Num.ne. destruct (Num.eqb a b); simpl; intuition congruence. Qed.

Lemma num_eqb_ne (a b : num) : Num.eqb a b = true <-> Num.ne a b = false.
Proof. unfold Num.ne. destruct (Num.eqb a b); simpl; intuition congruence. Qed.

Lemma num_eqb_not_nan (a b : num) : Num.eqb a b = true -> a <> NaN.
Proof. intros H ->. discriminate. Qed.

(* ------------------------------------------------------------------ *)
(** ** Closing a line *)

Lemma close_line_closed (line : Line2D) (x0 xl : num) :
  np.first (xdata line) = Ok x0 ->
  np.last (xdata line) = Ok xl ->
  Num.eqb x0 xl = true ->
  RadarAxes._close_line line = (line, Ok tt).
Proof.
  intros H0 Hl He. apply num_eqb_ne in He.
  unfold RadarAxes._close_line, bind, Line.get_data, lift.
  rewrite H0, Hl, He. reflexivity.
Qed.

Lemma close_line_open (line : Line2D) (x0 xl y0 : num) :
  np.first (xdata line) = Ok x0 ->
  np.last (xdata line) = Ok xl ->
  Num.ne x0 xl = true ->
  np.first (ydata line) = Ok y0 ->
  RadarAxes._close_line line =
    ({| xdata := xdata line ++ [x0]; ydata := ydata line ++ [y0];
        color := color line |}, Ok tt).
Proof.
  intros H0 Hl He Hy.
  unfold RadarAxes._close_line, bind, Line.get_data, lift.
  rewrite H0, Hl, He. simpl. rewrite Hy. reflexivity.
Qed.

(** A line whose first x value is nan and which has y values: every call
    of [_close_line] appends one more point. *)
Lemma close_line_nan (line : Line2D) (xl y0 : num) :
  np.first (xdata line) = Ok NaN ->
  np.last (xdata line) = Ok xl ->
  np.first (ydata line) = Ok y0 ->
  RadarAxes._close_line line =
    ({| xdata := xdata line ++ [NaN]; ydata := ydata line ++ [y0];
        color := color line |}, Ok tt).
Proof.
  intros H0 Hl Hy. apply (close_line_open line NaN xl y0 H0 Hl); auto.
Qed.

Lemma app_snoc_neq {A} (l : list A) (a b : A) : l ++ [a] ++ [b] <> l ++ [a].
Proof.
  intros H. apply (f_equal (@length A)) in H.
  rewrite !length_app in H. simpl in H. lia.
Qed.

(** C7.  [_close_line] and idempotence.  A line whose first point already
    equals its last point (both coordinates compare equal) is left as it
    is, data and all.  Calling [_close_line] twice leaves the same line
    and gives the same outcome as calling it once (an exception of the
    first call included) for every line but one kind: a line with y
    values whose first x value is nan.  The test [x[0] != x[-1]] holds of
    such a line after every call, so each call appends one more point. *)
Theorem close_line_idempotent (line : Line2D) :
  (forall p q : data_point,
      first_point line = Some p ->
      last_point line = Some q ->
      point_eqb p q = true ->
      RadarAxes._close_line line = (line, Ok tt))
  /\ ((RadarAxes._close_line ;; RadarAxes._close_line) line
      = RadarAxes._close_line line
      <-> ~ (np.first (xdata line) = Ok NaN /\ ydata line <> []))
  /\ (forall y0,
         np.first (xdata line) = Ok NaN ->
         np.first (ydata line) = Ok y0 ->
         (RadarAxes._close_line ;; RadarAxes._close_line) line
         = ({| xdata := xdata line ++ [NaN] ++ [NaN];
               ydata := ydata line ++ [y0] ++ [y0];
               color := color line |}, Ok tt)).
Proof.
  split; [|split].
  - intros [px py] [qx qy] Hf Hl Heq.
    unfold first_point in Hf. unfold last_point in Hl.
    destruct (np.first (xdata line)) as [x0|] eqn:Hx0; [|discriminate].
    destruct (np.first (ydata line)); [|discriminate].
    destruct (np.last (xdata line)) as [xl|] eqn:Hxl; [|discriminate].
    destruct (np.last (ydata line)); [|discriminate].
    inversion Hf; inversion Hl; subst.
    apply andb_prop in Heq. destruct Heq as [Hx _]. simpl in Hx.
    eapply close_line_closed; eauto.
  - unfold bind at 1.
    destruct (np.first (xdata line)) as [x0|e] eqn:Hx0.
    + destruct (first_last_some _ _ Hx0) as [xl Hxl].
      destruct (Num.eqb x0 xl) eqn:He.
      * rewrite (close_line_closed line x0 xl Hx0 Hxl He).
        cbv beta iota.
        rewrite (close_line_closed line x0 xl Hx0 Hxl He).
        split; [|intros _; reflexivity].
        intros _ [Hn _]. injection Hn as ->. discriminate.
      * apply num_ne_eqb in He.
        destruct (np.first (ydata line)) as [y0|e] eqn:Hy0.
        -- rewrite (close_line_open line x0 xl y0 Hx0 Hxl He Hy0).
           cbv beta iota.
           assert (Hx0' : np.first (xdata line ++ [x0]) = Ok x0)
             by (apply (first_app _ x0 x0 Hx0)).
           assert (Hxl' : np.last (xdata line ++ [x0]) = Ok x0)
             by (apply (last_app (xdata line) x0)).
           assert (Hy0' : np.first (ydata line ++ [y0]) = Ok y0)
             by (apply (first_app _ y0 y0 Hy0)).
           destruct (Num.eqb x0 x0) eqn:Hs.
           ++ rewrite (close_line_closed
                         {| xdata := xdata line ++ [x0];
                            ydata := ydata line ++ [y0];
                            color := color line |} x0 x0 Hx0' Hxl' Hs).
              split; [|intros _; reflexivity].
              intros _ [Hn _]. injection Hn as ->. discriminate.
           ++ apply num_ne_eqb in Hs.
              rewrite (close_line_open
                         {| xdata := xdata line ++ [x0];
                            ydata := ydata line ++ [y0];
                            color := color line |} x0 x0 y0
                         Hx0' Hxl' Hs Hy0').
              simpl. split.
              ** intros H. exfalso. injection H as H _.
                 rewrite <- app_assoc in H.
                 exact (app_snoc_neq _ _ _ H).
              ** intros H. exfalso. apply H. split.
                 --- apply num_ne_self in Hs. congruence.
                 --- intros E. rewrite E in Hy0. discriminate.
        -- split; [|intros _].
           ++ intros _ [_ Hn]. destruct (ydata line); [|discriminate].
              apply Hn. reflexivity.
           ++ unfold RadarAxes._close_line, bind, Line.get_data, lift.
              rewrite Hx0, Hxl, He. simpl. rewrite Hy0. reflexivity.
    + split; [intros _ [Hn _]; discriminate | intros _].
      unfold RadarAxes._close_line, bind, Line.get_data, lift.
      rewrite Hx0. reflexivity.
  - intros y0 Hx0 Hy0. unfold bind.
    destruct (first_last_some _ _ Hx0) as [xl Hxl].
    rewrite (close_line_nan line xl y0 Hx0 Hxl Hy0).
    rewrite (close_line_nan
               {| xdata := xdata line ++ [NaN];
                  ydata := ydata line ++ [y0]; color := color line |}
               NaN y0).
    + simpl. rewrite <- !app_assoc. reflexivity.
    + apply (first_app _ NaN NaN Hx0).
    + apply (last_app (xdata line) NaN).
    + apply (first_app _ y0 y0 Hy0).
Qed.

Lemma close_line_idempotent_witness :
  RadarAxes._close_line
    {| xdata := floats [0; 1; 0]; ydata := floats [5; 6; 5];
       color := "b" |}
  = ({| xdata := floats [0; 1; 0]; ydata := floats [5; 6; 5];
        color := "b" |}, Ok tt).
Proof.
  apply (proj1 (close_line_idempotent
                  {| xdata := floats [0; 1; 0]; ydata := floats [5; 6; 5];
                     color := "b" |})
               (Float64 0, Float64 5) (Float64 0, Float64 5));
    reflexivity.
Defined.

(** The line with x values (nan, 1) and y values (5, 6): one call of
    [_close_line] leaves three points, two calls leave four. *)
Lemma close_line_nan_grows :
  RadarAxes._close_line
    {| xdata := [NaN; Float64 1]; ydata := floats [5; 6]; color := "b" |}
  = ({| xdata := [NaN; Float64 1; NaN]; ydata := floats [5; 6; 5];
        color := "b" |}, Ok tt)
  /\ (RadarAxes._close_line ;; RadarAxes._close_line)
       {| xdata := [NaN; Float64 1]; ydata := floats [5; 6];
          color := "b" |}
     = ({| xdata := [NaN; Float64 1; NaN; NaN];
           ydata := floats [5; 6; 5; 5]; color := "b" |}, Ok tt).
Proof. split; reflexivity. Qed.

(* ------------------------------------------------------------------ *)
(** ** Plotting a line *)

Lemma plot_shape_mismatch (x y : list num) (c : string) (ax : Axes) :
  length x <> length y ->
  RadarAxes.plot x y c ax = (ax, PolarAxes.shape_mismatch).
Proof.
  intros H. apply Nat.eqb_neq in H.
  unfold RadarAxes.plot, bind, PolarAxes.plot. rewrite H. reflexivity.
Qed.

Lemma plot_open (x y : list num) (c : string) (ax : Axes) (x0 xl y0 : num) :
  length x = length y ->
  np.first x = Ok x0 -> np.last x = Ok xl -> Num.ne x0 xl = true ->
  np.first y = Ok y0 ->
  RadarAxes.plot x y c ax =
    (with_lines
       (fun ls => ls ++ [{| xdata := x ++ [x0]; ydata := y ++ [y0];
                            color := c |}]) ax,
     Ok tt).
Proof.
  intros Hlen H0 Hl He Hy. apply Nat.eqb_eq in Hlen.
  unfold RadarAxes.plot, bind, PolarAxes.plot. rewrite Hlen.
  simpl for_each. unfold bind, on_line, at_index. simpl ax_lines.
  rewrite nth_error_snoc.
  rewrite (close_line_open
             {| xdata := x; ydata := y; color := c |} x0 xl y0 H0 Hl He Hy).
  rewrite set_nth_snoc. reflexivity.
Qed.

(** C1.  [plot] closes the lines it draws, and the test is on the x
    coordinates alone: when the first x differs from the last x
    ([x[0] != x[-1]]), the line of the axes after the call is the plotted
    data followed by a copy of its first point, so that its first and last
    points are the same.  [fill] passes [closed=True] when the caller does
    not give the keyword. *)
Theorem plot_closes_line (x y : list num) (c : string) (ax : Axes)
        (x0 xl : num) :
  length x = length y ->
  np.first x = Ok x0 -> np.last x = Ok xl -> Num.ne x0 xl = true ->
  (exists y0,
      np.first y = Ok y0
      /\ RadarAxes.plot x y c ax =
           (with_lines
              (fun ls => ls ++ [{| xdata := x ++ [x0];
                                   ydata := y ++ [y0]; color := c |}]) ax,
            Ok tt)
      /\ first_point {| xdata := x ++ [x0]; ydata := y ++ [y0];
                        color := c |} = Some (x0, y0)
      /\ last_point {| xdata := x ++ [x0]; ydata := y ++ [y0];
                       color := c |} = Some (x0, y0))
  /\ (forall (fx fy : list num) (a : Axes),
         RadarAxes.fill fx fy None a = PolarAxes.fill fx fy true a).
Proof.
  intros Hlen H0 Hl He. split; [|reflexivity].
  destruct (first_of_length x y x0 H0 Hlen) as [y0 Hy].
  exists y0. split; [exact Hy|]. split.
  - apply (plot_open x y c ax x0 xl y0 Hlen H0 Hl He Hy).
  - unfold first_point, last_point. simpl.
    change (x ++ [x0]) with (np.append x x0).
    change (y ++ [y0]) with (np.append y y0).
    rewrite (first_app x x0 x0 H0), (first_app y y0 y0 Hy), !last_app. auto.
Qed.

Lemma plot_closes_line_witness :
  exists y0,
    np.first (floats [5; 6]) = Ok y0
    /\ RadarAxes.plot (floats [0; 1]) (floats [5; 6]) "b" axes28 =
         (with_lines
            (fun ls => ls ++ [{| xdata := floats [0; 1] ++ [Float64 0];
                                 ydata := floats [5; 6] ++ [y0];
                                 color := "b" |}]) axes28,
          Ok tt)
    /\ first_point {| xdata := floats [0; 1] ++ [Float64 0];
                      ydata := floats [5; 6] ++ [y0];
                      color := "b" |} = Some (Float64 0, y0)
    /\ last_point {| xdata := floats [0; 1] ++ [Float64 0];
                     ydata := floats [5; 6] ++ [y0];
                     color := "b" |} = Some (Float64 0, y0).
Proof.
  apply (proj1 (plot_closes_line (floats [0; 1]) (floats [5; 6]) "b"
                  axes28 (Float64 0) (Float64 1)
                  eq_refl eq_refl eq_refl eq_refl)).
Defined.

(** The line with first point (0, 1) and last point (0, 2): the points
    differ, the x coordinates do not, and [plot] leaves the line open. *)
Lemma plot_leaves_line_open :
  first_point {| xdata := floats [0; 0]; ydata := floats [1; 2];
                 color := "b" |}
  = Some (Float64 0, Float64 1)
  /\ last_point {| xdata := floats [0; 0]; ydata := floats [1; 2];
                   color := "b" |}
     = Some (Float64 0, Float64 2)
  /\ point_eqb (Float64 0, Float64 1) (Float64 0, Float64 2) = false
  /\ RadarAxes.plot (floats [0; 0]) (floats [1; 2]) "b" axes28 =
       (with_lines
          (fun ls => ls ++ [{| xdata := floats [0; 0];
                               ydata := floats [1; 2];
                               color := "b" |}]) axes28,
        Ok tt).
Proof. repeat split. Qed.

(* ------------------------------------------------------------------ *)
(** ** The frame *)

(** C2.  The frame is circular or polygonal.  For [frame = 'circle'] the
    patch is the circle of radius 0.5 centred at (0.5, 0.5) and the spines
    are the inherited ones; for [frame = 'polygon'] the patch is the
    regular polygon with [num_vars] vertices and the spines are the
    dictionary with the one polygon spine; for every other value both
    methods raise [ValueError]. *)
Theorem frame_circle_or_polygon (cls : RadarAxesClass) :
  (frame cls = "circle" ->
   RadarAxes._gen_axes_patch cls = Ok (Circle (1 # 2, 1 # 2) (1 # 2))
   /\ RadarAxes._gen_axes_spines cls = Ok PolarSpines)
  /\ (frame cls = "polygon" ->
      RadarAxes._gen_axes_patch cls
      = Ok (RegularPolygon (1 # 2, 1 # 2) (num_vars cls) (1 # 2) "k")
      /\ RadarAxes._gen_axes_spines cls
         = Ok (SpineDict
                 [("polar",
                   {| spine_type := "circle";
                      spine_path := unit_regular_polygon (num_vars cls);
                      spine_transform :=
                        RadarAxes.polygon_spine_transform |})]))
  /\ (frame cls <> "circle" -> frame cls <> "polygon" ->
      raises ValueError (RadarAxes._gen_axes_patch cls)
      /\ raises ValueError (RadarAxes._gen_axes_spines cls)).
Proof.
  unfold RadarAxes._gen_axes_patch, RadarAxes._gen_axes_spines.
  repeat split.
  - rewrite H. reflexivity.
  - rewrite H. reflexivity.
  - rewrite H. reflexivity.
  - rewrite H. reflexivity.
  - apply String.eqb_neq in H, H0. rewrite H, H0. eexists. reflexivity.
  - apply String.eqb_neq in H, H0. rewrite H, H0. eexists. reflexivity.
Qed.

Lemma frame_circle_or_polygon_witness :
  (RadarAxes._gen_axes_patch (class_of_frame "circle")
   = Ok (Circle (1 # 2, 1 # 2) (1 # 2))
   /\ RadarAxes._gen_axes_spines (class_of_frame "circle") = Ok PolarSpines)
  /\ (RadarAxes._gen_axes_patch (class_of_frame "polygon")
      = Ok (RegularPolygon (1 # 2, 1 # 2) 5 (1 # 2) "k")
      /\ RadarAxes._gen_axes_spines (class_of_frame "polygon")
         = Ok (SpineDict
                 [("polar",
                   {| spine_type := "circle";
                      spine_path := unit_regular_polygon 5;
                      spine_transform :=
                        RadarAxes.polygon_spine_transform |})]))
  /\ (raises ValueError (RadarAxes._gen_axes_patch (class_of_frame "square"))
      /\ raises ValueError
           (RadarAxes._gen_axes_spines (class_of_frame "square"))).
Proof.
  split; [|split].
  - apply (proj1 (frame_circle_or_polygon (class_of_frame "circle"))).
    reflexivity.
  - apply (proj1 (proj2 (frame_circle_or_polygon
                           (class_of_frame "polygon")))).
    reflexivity.
  - apply (proj2 (proj2 (frame_circle_or_polygon
                           (class_of_frame "square"))));
      simpl; discriminate.
Defined.

(* ------------------------------------------------------------------ *)
(** ** The polygon spine transform *)

Lemma spine_affine_point (p : point) :
  point_eq (Affine2D.transform_point RadarAxes.spine_affine p)
           (fst p / 2 + (1 # 2), snd p / 2 + (1 # 2)).
Proof.
  destruct p as [x y]. unfold point_eq. simpl. split; field.
Qed.

(** C6.  For the polygon frame the spine is the unit regular polygon with
    [num_vars] vertices under the transform
    [Affine2D().scale(.5).translate(.5, .5) + transAxes]: every point [p]
    goes to [p / 2 + (0.5, 0.5)] and from there through [transAxes].  The
    centre (0, 0) goes to (0.5, 0.5) and distances to the centre are
    halved, so the polygon of radius 1 becomes one of radius 0.5 centred at
    (0.5, 0.5) in axes coordinates. *)
Theorem polygon_spine_transform_halves
        (cls : RadarAxesClass) (axes_to_display : point -> point)
        (p : point) :
  (frame cls = "polygon" ->
   exists spine,
     RadarAxes._gen_axes_spines cls = Ok (SpineDict [("polar", spine)])
     /\ spine_path spine = unit_regular_polygon (num_vars cls)
     /\ spine_transform spine = RadarAxes.polygon_spine_transform)
  /\ transform axes_to_display RadarAxes.polygon_spine_transform p
     = axes_to_display (Affine2D.transform_point RadarAxes.spine_affine p)
  /\ point_eq (Affine2D.transform_point RadarAxes.spine_affine p)
              (fst p / 2 + (1 # 2), snd p / 2 + (1 # 2))
  /\ point_eq (Affine2D.transform_point RadarAxes.spine_affine (0, 0))
              (1 # 2, 1 # 2)
  /\ dist2 (Affine2D.transform_point RadarAxes.spine_affine p)
           (1 # 2, 1 # 2)
     == (1 # 4) * dist2 p (0, 0).
Proof.
  split; [|split; [|split; [|split]]].
  - intros Hf. unfold RadarAxes._gen_axes_spines. rewrite Hf. simpl.
    eexists. split; [reflexivity|]. split; reflexivity.
  - reflexivity.
  - apply spine_affine_point.
  - split; reflexivity.
  - destruct p as [x y]. unfold dist2. simpl. field.
Qed.

Lemma polygon_spine_transform_halves_witness :
  exists spine,
    RadarAxes._gen_axes_spines radar28 = Ok (SpineDict [("polar", spine)])
    /\ spine_path spine = unit_regular_polygon 28
    /\ spine_transform spine = RadarAxes.polygon_spine_transform.
Proof.
  apply (proj1 (polygon_spine_transform_halves radar28 (fun q => q) (1, 0))).
  reflexivity.
Defined.

(* ------------------------------------------------------------------ *)

(* ------------------------------------------------------------------ *)
(** ** The axis angles *)

Lemma inject_Z_pos (n : Z) : (1 <= n)%Z -> 0 < inject_Z n.
Proof.
  intros H. change 0 with (inject_Z 0). rewrite <- Zlt_Qlt. lia.
Qed.

Lemma two_pi_pos : 0 < 2 * np.pi.
Proof. reflexivity. Qed.

(** C3.  For [num_vars >= 1], [radar_factory] returns [num_vars] angles,
    the [k]-th of which is [k * 2 * pi / num_vars]: they are evenly
    spaced, [2 * pi / num_vars] apart, and all below [2 * pi], so the end
    point is not among them.  The call registers the class and raises
    nothing, whatever [frame] is. *)
Theorem radar_factory_angles (num_vars : Z) (frame : string) (w : World) :
  (1 <= num_vars)%Z ->
  exists theta w',
    RadarDiagram.radar_factory num_vars frame w = (w', Ok theta)
    /\ length theta = Z.to_nat num_vars
    /\ (forall k, (k < Z.to_nat num_vars)%nat ->
          exists a,
            nth_error theta k = Some (Float64 a)
            /\ a == inject_Z (Z.of_nat k) * 2 * np.pi / inject_Z num_vars
            /\ a < 2 * np.pi)
    /\ (forall k a b,
          nth_error theta k = Some a ->
          nth_error theta (S k) = Some b ->
          exists qa qb,
            a = Float64 qa /\ b = Float64 qb
            /\ qb - qa == 2 * np.pi / inject_Z num_vars).
Proof.
  intros Hn.
  assert (Hpos : 0 < inject_Z num_vars) by (apply inject_Z_pos; exact Hn).
  assert (Hnz : ~ inject_Z num_vars == 0) by lra.
  unfold RadarDiagram.radar_factory, bind, lift, np.linspace.
  destruct (num_vars <? 0)%Z eqn:E; [apply Z.ltb_lt in E; lia|].
  eexists. eexists. split; [reflexivity|]. split; [|split].
  - rewrite length_map, length_seq. reflexivity.
  - intros k Hk. eexists. split.
    + rewrite nth_error_map, nth_error_seq.
      apply Nat.ltb_lt in Hk. rewrite Hk. reflexivity.
    + simpl. split; [field; exact Hnz|].
      assert (Hkn : inject_Z (Z.of_nat k) < inject_Z num_vars)
        by (rewrite <- Zlt_Qlt; lia).
      set (q := inject_Z (Z.of_nat k)) in *.
      set (n := inject_Z num_vars) in *.
      assert (Hq : q * ((2 * np.pi - 0) / n) + 0 == (2 * np.pi) * (q / n))
        by (field; exact Hnz).
      rewrite Hq.
      assert (Hlt : q / n < 1)
        by (apply Qlt_shift_div_r; [exact Hpos | lra]).
      pose proof two_pi_pos as Hp.
      rewrite <- (Qmult_1_r (2 * np.pi)) at 2.
      apply Qmult_lt_l; assumption.
  - intros k a b Ha Hb.
    rewrite nth_error_map, nth_error_seq in Ha, Hb.
    destruct (k <? Z.to_nat num_vars)%nat; [|discriminate].
    destruct (S k <? Z.to_nat num_vars)%nat; [|discriminate].
    unfold option_map in Ha, Hb.
    injection Ha as <-. injection Hb as <-.
    eexists. eexists. split; [reflexivity|]. split; [reflexivity|].
    change (Z.pos (Pos.of_succ_nat k)) with (Z.of_nat (S k)).
    rewrite Nat2Z.inj_succ. unfold Z.succ. rewrite inject_Z_plus.
    field. exact Hnz.
Qed.

Lemma radar_factory_angles_witness :
  exists theta w',
    RadarDiagram.radar_factory 4 "circle" empty_world = (w', Ok theta)
    /\ length theta = Z.to_nat 4
    /\ (forall k, (k < Z.to_nat 4)%nat ->
          exists a,
            nth_error theta k = Some (Float64 a)
            /\ a == inject_Z (Z.of_nat k) * 2 * np.pi / inject_Z 4
            /\ a < 2 * np.pi)
    /\ (forall k a b,
          nth_error theta k = Some a ->
          nth_error theta (S k) = Some b ->
          exists qa qb,
            a = Float64 qa /\ b = Float64 qb
            /\ qb - qa == 2 * np.pi / inject_Z 4).
Proof.
  apply (radar_factory_angles 4 "circle" empty_world). lia.
Defined.

(* ------------------------------------------------------------------ *)
(** ** [draw], seen from the figure it creates

    [draw] registers the class, creates one figure with one axes and then
    works on that figure only.  The lemmas below reduce a call of [draw]
    to [draw_axes], the same statements run on the axes object itself. *)

Lemma bind_run {S A B} (m : M S A) (k : A -> M S B) (s : S) :
  bind m k s
  = match m s with
    | (s', Ok a) => k a s'
    | (s', Raise e) => (s', Raise e)
    end.
Proof. reflexivity. Qed.

Lemma bind_lift {S A B} (r : result A) (k : A -> M S B) (s : S) :
  bind (lift r) k s
  = match r with
    | Ok a => k a s
    | Raise e => (s, Raise e)
    end.
Proof. unfold bind, lift. destruct r; reflexivity. Qed.

Lemma on_fig_last {A} (m : M Figure A) p fs f fl o :
  on_fig (length fs) m
         {| projections := p; figures := fs ++ [f]; files := fl;
           savefig_outcome := o |}
  = ({| projections := p; figures := fs ++ [fst (m f)]; files := fl;
           savefig_outcome := o |},
     snd (m f)).
Proof.
  unfold on_fig, at_index, with_figures. simpl.
  rewrite nth_error_snoc. destruct (m f) as [f' r]. simpl.
  rewrite set_nth_snoc. reflexivity.
Qed.

Lemma on_axes_last {A} (m : M Axes A) p fs ax adj txt fl o :
  on_axes (length fs) m
          {| projections := p; figures := fs ++ [draw_figure ax adj txt];
             files := fl;
           savefig_outcome := o |}
  = ({| projections := p;
        figures := fs ++ [draw_figure (fst (m ax)) adj txt];
        files := fl;
           savefig_outcome := o |},
     snd (m ax)).
Proof.
  unfold on_axes. rewrite on_fig_last. simpl.
  destruct (m ax) as [ax' r]. reflexivity.
Qed.

Lemma bind_on_axes_last {A B} (m : M Axes A) (k : A -> M World B)
      p fs ax adj txt fl o :
  bind (on_axes (length fs) m) k
       {| projections := p; figures := fs ++ [draw_figure ax adj txt];
          files := fl;
           savefig_outcome := o |}
  = match m ax with
    | (ax', Ok a) =>
        k a {| projections := p;
               figures := fs ++ [draw_figure ax' adj txt]; files := fl;
           savefig_outcome := o |}
    | (ax', Raise e) =>
        ({| projections := p;
            figures := fs ++ [draw_figure ax' adj txt]; files := fl;
           savefig_outcome := o |},
         Raise e)
    end.
Proof.
  unfold bind. rewrite on_axes_last. destruct (m ax) as [ax' [a|e]];
    reflexivity.
Qed.

Lemma savefig_last (filename : string) p fs f fl o :
  Fig.savefig (length fs) filename
              {| projections := p; figures := fs ++ [f]; files := fl;
                 savefig_outcome := o |}
  = match o filename with
    | SavedAs path =>
        ({| projections := p; figures := fs ++ [f];
            files := fl ++ [(path, f)]; savefig_outcome := o |}, Ok tt)
    | UnsupportedFormat =>
        ({| projections := p; figures := fs ++ [f]; files := fl;
            savefig_outcome := o |},
         Raise (Exn ValueError "Format is not supported"))
    | NotWritable =>
        ({| projections := p; figures := fs ++ [f]; files := fl;
            savefig_outcome := o |},
         Raise (Exn OSError "the file cannot be written"))
    end.
Proof.
  unfold Fig.savefig. simpl. rewrite nth_error_snoc. reflexivity.
Qed.

Lemma plot_loop_cons (theta i : list num) (rest : list (list num))
      (ind : nat) (ax : Axes) :
  plot_loop theta ind (i :: rest) ax
  = match list_getitem RadarDiagram.colors ind with
    | Ok c =>
        match RadarAxes.plot theta i c ax with
        | (ax', Ok _) => plot_loop theta (S ind) rest ax'
        | (ax', Raise e) => (ax', Raise e)
        end
    | Raise e => (ax, Raise e)
    end.
Proof.
  unfold plot_loop. simpl for_enumerate. unfold bind, lift.
  destruct (list_getitem RadarDiagram.colors ind); reflexivity.
Qed.

Lemma plot_series_last (theta : list num) (data : list (list num)) :
  forall ind p fs ax adj txt fl o,
    for_enumerate
      (fun ind i =>
         c <- lift (list_getitem RadarDiagram.colors ind) ;;
         on_axes (length fs) (RadarAxes.plot theta i c))
      ind data
      {| projections := p; figures := fs ++ [draw_figure ax adj txt];
         files := fl;
           savefig_outcome := o |}
    = ({| projections := p;
          figures :=
            fs ++ [draw_figure (fst (plot_loop theta ind data ax)) adj txt];
          files := fl;
           savefig_outcome := o |},
       snd (plot_loop theta ind data ax)).
Proof.
  induction data as [|i rest IH]; intros ind p fs ax adj txt fl o.
  - reflexivity.
  - rewrite plot_loop_cons. simpl for_enumerate.
    rewrite bind_run, bind_lift.
    destruct (list_getitem RadarDiagram.colors ind) as [c|e];
      [|reflexivity].
    rewrite on_axes_last.
    destruct (RadarAxes.plot theta i c ax) as [ax' [[]|e]]; cbn [fst snd].
    + apply IH.
    + reflexivity.
Qed.

Lemma bind_plot_series_last {B} (theta : list num) (data : list (list num))
      (k : unit -> M World B) p fs ax adj txt fl o :
  bind (RadarDiagram.plot_series (length fs) theta data) k
       {| projections := p; figures := fs ++ [draw_figure ax adj txt];
          files := fl;
           savefig_outcome := o |}
  = match plot_loop theta 0 data ax with
    | (ax', Ok a) =>
        k a {| projections := p;
               figures := fs ++ [draw_figure ax' adj txt]; files := fl;
           savefig_outcome := o |}
    | (ax', Raise e) =>
        ({| projections := p;
            figures := fs ++ [draw_figure ax' adj txt]; files := fl;
           savefig_outcome := o |},
         Raise e)
    end.
Proof.
  unfold bind, RadarDiagram.plot_series. rewrite plot_series_last.
  destruct (plot_loop theta 0 data ax) as [ax' [a|e]]; reflexivity.
Qed.

Lemma radar_factory_28 (w : World) :
  RadarDiagram.radar_factory 28 "polygon" w
  = ({| projections := ("radar", radar28) :: projections w;
        figures := figures w; files := files w;
        savefig_outcome := savefig_outcome w |}, Ok theta28).
Proof. reflexivity. Qed.

Lemma subplots_radar28 p fs fl o :
  plt.subplots (12, 12) "radar"
    {| projections := ("radar", radar28) :: p; figures := fs;
       files := fl;
           savefig_outcome := o |}
  = ({| projections := ("radar", radar28) :: p;
        figures := fs ++ [draw_figure axes28 None []]; files := fl;
           savefig_outcome := o |},
     Ok (length fs, length fs)).
Proof. reflexivity. Qed.

(** What a call of [draw] leaves and returns, from the run on the axes. *)
Lemma draw_run (filename : string) (data : list (list num))
      (label : list string) (title : string) (w : World) :
  RadarDiagram.draw filename data label title w
  = match draw_axes data label axes28 with
    | (ax, Ok _) =>
        let f := draw_figure ax (Some draw_adjust) [title_text title] in
        (after_draw w f (saved_files (savefig_outcome w filename) f),
         save_result (savefig_outcome w filename))
    | (ax, Raise e) =>
        (after_draw w (draw_figure ax (Some draw_adjust) []) [], Raise e)
    end.
Proof.
  unfold RadarDiagram.draw, draw_axes.
  rewrite bind_run, radar_factory_28.
  rewrite bind_run, subplots_radar28.
  rewrite bind_run, on_fig_last.
  change (fst (Fig.subplots_adjust 1 1 (85 # 100) (5 # 100)
                 (draw_figure axes28 None [])))
    with (draw_figure axes28 (Some draw_adjust) []).
  cbn [snd Fig.subplots_adjust modify].
  rewrite !(bind_lift (np.average data)).
  destruct (np.average data) as [avg|e];
    [|unfold after_draw; rewrite app_nil_r; reflexivity].
  rewrite !(bind_lift (RadarDiagram.rgrid_levels data)).
  destruct (RadarDiagram.rgrid_levels data) as [levels|e];
    [|unfold after_draw; rewrite app_nil_r; reflexivity].
  rewrite bind_on_axes_last, (bind_run (PolarAxes.set_rgrids levels)).
  destruct (PolarAxes.set_rgrids levels axes28) as [ax1 [[]|e]];
    [|unfold after_draw; rewrite app_nil_r; reflexivity].
  rewrite bind_plot_series_last, (bind_run (plot_loop theta28 0 data)).
  destruct (plot_loop theta28 0 data ax1) as [ax2 [[]|e]];
    [|unfold after_draw; rewrite app_nil_r; reflexivity].
  rewrite bind_on_axes_last, (bind_run (RadarAxes.set_varlabels label)).
  destruct (RadarAxes.set_varlabels label ax2) as [ax3 [[]|e]];
    [|unfold after_draw; rewrite app_nil_r; reflexivity].
  rewrite bind_on_axes_last.
  destruct (PolarAxes.legend RadarDiagram.legend_labels
              (- (13 # 100), 99 # 100) (1 # 10) "medium" ax3)
    as [ax4 [l|e]]; [|unfold after_draw; rewrite app_nil_r; reflexivity].
  rewrite bind_run, on_fig_last.
  cbn [fst snd Fig.text modify].
  rewrite savefig_last. cbn [savefig_outcome]. unfold after_draw.
  destruct (savefig_outcome w filename); simpl;
    rewrite ?app_nil_r; reflexivity.
Qed.

(* ------------------------------------------------------------------ *)
(** ** The run on the axes *)

Lemma theta28_nth (k : nat) :
  (k < 28)%nat ->
  exists a,
    nth_error theta28 k = Some (Float64 a)
    /\ a == inject_Z (Z.of_nat k) * 2 * np.pi / 28.
Proof.
  intros Hk.
  exists (inject_Z (Z.of_nat k) * ((2 * np.pi - 0) / inject_Z 28) + 0).
  split.
  - unfold theta28, np.linspace.
    change (28 <? 0)%Z with false. cbv iota.
    rewrite nth_error_map, nth_error_seq.
    change (Z.to_nat 28) with 28%nat.
    apply Nat.ltb_lt in Hk. rewrite Hk. reflexivity.
  - change (inject_Z 28) with 28. field.
Qed.

Lemma theta28_ends :
  length theta28 = 28%nat
  /\ np.first theta28 = Ok (hd (Float64 0) theta28)
  /\ np.last theta28 = Ok (last theta28 (Float64 0))
  /\ Num.ne (hd (Float64 0) theta28) (last theta28 (Float64 0)) = true.
Proof. vm_compute. repeat split. Qed.

Lemma first_hd (i : list num) (n : nat) :
  length i = S n -> np.first i = Ok (hd (Float64 0) i).
Proof. destruct i; [discriminate | reflexivity]. Qed.

Lemma plot28_ok (i : list num) (c : string) (ax : Axes) :
  length i = 28%nat ->
  RadarAxes.plot theta28 i c ax
  = (with_lines (fun ls => ls ++ [closed_series i c]) ax, Ok tt).
Proof.
  intros Hi. destruct theta28_ends as [Hlen [H0 [Hl He]]].
  apply (plot_open theta28 i c ax (hd (Float64 0) theta28)
                   (last theta28 (Float64 0)) (hd (Float64 0) i));
    try assumption.
  - congruence.
  - apply (first_hd i 27 Hi).
Qed.

Lemma plot28_bad (i : list num) (c : string) (ax : Axes) :
  length i <> 28%nat ->
  RadarAxes.plot theta28 i c ax = (ax, PolarAxes.shape_mismatch).
Proof.
  intros Hi. apply plot_shape_mismatch.
  destruct theta28_ends as [Hlen _]. congruence.
Qed.

Lemma with_lines_nil (ax : Axes) : with_lines (fun ls => ls ++ []) ax = ax.
Proof. destruct ax. unfold with_lines. simpl. rewrite app_nil_r. trivial. Qed.

Lemma with_lines_app (ax : Axes) (a b : list Line2D) :
  with_lines (fun ls => ls ++ b) (with_lines (fun ls => ls ++ a) ax)
  = with_lines (fun ls => ls ++ (a ++ b)) ax.
Proof. unfold with_lines. simpl. rewrite app_assoc. reflexivity. Qed.

(** Whatever the data, the loop only adds lines, and every line it adds
    is drawn against the 28 angles.  It raises [IndexError] exactly when
    it gets to a third series: the colours are looked up at positions 0
    and 1 only if the data stops there.  When it returns normally it has
    added one line per series, and there were no more series than
    colours left. *)
Lemma plot_loop_lines (data : list (list num)) :
  forall ind ax,
  exists new,
    fst (plot_loop theta28 ind data ax)
    = with_lines (fun ls => ls ++ new) ax
    /\ Forall (fun l => xdata l = theta28_closed) new
    /\ raisesb IndexError (snd (plot_loop theta28 ind data ax))
       = (2 - ind <? length data)%nat
         && forallb (fun i => Nat.eqb (length i) 28)
                    (firstn (2 - ind) data)
    /\ (is_ok (snd (plot_loop theta28 ind data ax)) = true ->
        length new = length data /\ (length data <= 2 - ind)%nat).
Proof.
  induction data as [|i rest IH]; intros ind ax.
  - exists []. rewrite with_lines_nil.
    split; [reflexivity|]. split; [constructor|]. split.
    + simpl. destruct (2 - ind)%nat; reflexivity.
    + intros _. split; [reflexivity | cbn [length]; lia].
  - rewrite plot_loop_cons. unfold list_getitem.
    destruct (nth_error RadarDiagram.colors ind) as [c|] eqn:Hc.
    + assert (Hind : (ind < 2)%nat)
        by (apply (proj1 (nth_error_Some RadarDiagram.colors ind));
            rewrite Hc; discriminate).
      replace (2 - ind)%nat with (S (2 - S ind)) by lia.
      simpl firstn. simpl forallb. simpl length.
      change (S (2 - S ind) <? S (length rest))%nat
        with (2 - S ind <? length rest)%nat.
      destruct (Nat.eq_dec (length i) 28) as [Hi|Hi].
      * rewrite (plot28_ok i c ax Hi).
        destruct (IH (S ind)
                     (with_lines (fun ls => ls ++ [closed_series i c]) ax))
          as [new [Hn [Hall [Hr Hok]]]].
        exists (closed_series i c :: new). split; [|split; [|split]].
        -- rewrite Hn, with_lines_app. reflexivity.
        -- constructor; [reflexivity | exact Hall].
        -- rewrite Hr. apply Nat.eqb_eq in Hi. rewrite Hi. reflexivity.
        -- intros H. destruct (Hok H) as [H1 H2]. cbn [length]. lia.
      * rewrite (plot28_bad i c ax Hi). exists [].
        split; [|split; [|split]].
        -- rewrite with_lines_nil. reflexivity.
        -- constructor.
        -- apply Nat.eqb_neq in Hi. rewrite Hi. simpl.
           rewrite andb_false_r. reflexivity.
        -- discriminate.
    + assert (Hind : (2 <= ind)%nat)
        by (apply nth_error_None in Hc; exact Hc).
      exists []. split; [|split; [|split]].
      * rewrite with_lines_nil. reflexivity.
      * constructor.
      * replace (2 - ind)%nat with 0%nat by lia. reflexivity.
      * discriminate.
Qed.

(* ------------------------------------------------------------------ *)
(** ** Minimum, maximum and the grid levels *)

Lemma rgrid_levels_ok (data : list (list num)) (mn mx : num) :
  np.min data = Ok mn -> np.max data = Ok mx ->
  RadarDiagram.rgrid_levels data
  = Ok [mn; Num.truediv (Num.add mn mx) 2;
        Num.truediv (Num.mul mx (Int64 3)) 4; mx].
Proof.
  intros Hmn Hmx. unfold RadarDiagram.rgrid_levels.
  rewrite Hmn, Hmx. reflexivity.
Qed.

Lemma asarray_raises (data : list (list num)) (e : exn) :
  np.asarray data = Raise e -> exn_type e = ValueError.
Proof.
  unfold np.asarray. destruct data as [|row rows]; [discriminate|].
  destruct (forallb _ rows); [discriminate|].
  intros H. injection H as <-. reflexivity.
Qed.

Lemma average_raises (data : list (list num)) (e : exn) :
  np.average data = Raise e ->
  exn_type e = ValueError /\ np.min data = Raise e.
Proof.
  unfold np.average, np.min, rbind.
  destruct (np.asarray data) as [[|v t]|e'] eqn:Ha; try discriminate.
  intros H. injection H as <-. split; [|reflexivity].
  apply (asarray_raises data e' Ha).
Qed.

Lemma min_raises (data : list (list num)) (e : exn) :
  np.min data = Raise e -> exn_type e = ValueError.
Proof.
  unfold np.min, rbind.
  destruct (np.asarray data) as [[|v t]|e'] eqn:Ha; try discriminate.
  - intros H. injection H as <-. reflexivity.
  - intros H. injection H as <-. apply (asarray_raises data e' Ha).
Qed.

Lemma max_raises (data : list (list num)) (e : exn) :
  np.max data = Raise e -> exn_type e = ValueError.
Proof.
  unfold np.max, rbind.
  destruct (np.asarray data) as [[|v t]|e'] eqn:Ha; try discriminate.
  - intros H. injection H as <-. reflexivity.
  - intros H. injection H as <-. apply (asarray_raises data e' Ha).
Qed.

Lemma rgrid_levels_raises (data : list (list num)) (e : exn) :
  RadarDiagram.rgrid_levels data = Raise e -> exn_type e = ValueError.
Proof.
  unfold RadarDiagram.rgrid_levels, rbind.
  destruct (np.min data) as [mn|e1] eqn:Hmn.
  - destruct (np.max data) as [mx|e2] eqn:Hmx; [discriminate|].
    intros H. injection H as <-. apply (max_raises data e2 Hmx).
  - intros H. injection H as <-. apply (min_raises data e1 Hmn).
Qed.

Lemma array_nil (l : list num) : np.array l = [] -> l = [].
Proof.
  unfold np.array. destruct (forallb Num.is_int l); [trivial|].
  destruct l; [trivial | discriminate].
Qed.

Lemma array_length (l : list num) : length (np.array l) = length l.
Proof.
  unfold np.array. destruct (forallb Num.is_int l); [trivial|].
  apply length_map.
Qed.

(** Rows of one length make an array, with elements when there is a row
    and the rows are not empty. *)
Lemma asarray_rows (data : list (list num)) (n : nat) :
  Forall (fun i => length i = n) data ->
  np.asarray data = Ok (np.array (concat data)).
Proof.
  intros H. destruct data as [|row rows]; [reflexivity|].
  unfold np.asarray. inversion H as [|? ? Hrow Hrows]; subst.
  replace (forallb _ rows) with true; [reflexivity|].
  symmetry. apply forallb_forall. intros r Hr. apply Nat.eqb_eq.
  rewrite Forall_forall in Hrows. apply Hrows. exact Hr.
Qed.

Lemma levels_of_rows (data : list (list num)) (n : nat) :
  Forall (fun i => length i = S n) data -> data <> [] ->
  (exists avg, np.average data = Ok avg)
  /\ exists mn mx, np.min data = Ok mn /\ np.max data = Ok mx.
Proof.
  intros H Hne. unfold np.average, np.min, np.max.
  rewrite (asarray_rows data (S n) H).
  destruct data as [|[|v row] rows]; [congruence | |].
  - inversion H; discriminate.
  - destruct (np.array (concat ((v :: row) :: rows))) as [|a t] eqn:E.
    + apply array_nil in E. discriminate.
    + simpl. eauto 6.
Qed.

(* ------------------------------------------------------------------ *)
(** ** What [draw] leaves on the axes *)

Lemma degrees_theta28_length : length (np.degrees theta28) = 28%nat.
Proof. reflexivity. Qed.

Lemma draw_axes_summary (data : list (list num)) (label : list string) :
  exists lines rg tg lg,
    fst (draw_axes data label axes28) = drawn lines rg tg lg
    /\ Forall (fun l => xdata l = theta28_closed) lines
    /\ (forall lv, RadarDiagram.rgrid_levels data = Ok lv ->
          rg = Some (np.array lv))
    /\ (forall l, snd (draw_axes data label axes28) = Ok l ->
          l = draw_legend (length data)
          /\ lg = Some (draw_legend (length data))
          /\ tg = Some (np.degrees theta28, label)
          /\ length lines = length data
          /\ (1 <= length data <= 2)%nat)
    /\ raisesb IndexError (snd (draw_axes data label axes28))
       = is_ok (RadarDiagram.rgrid_levels data)
         && (2 <? length data)%nat
         && forallb (fun i => Nat.eqb (length i) 28) (firstn 2 data).
Proof.
  unfold draw_axes. rewrite (bind_lift (np.average data)).
  destruct (np.average data) as [avg|e] eqn:Havg.
  2:{ destruct (average_raises data e Havg) as [He Hmin].
      exists [], None, None, None. simpl.
      unfold RadarDiagram.rgrid_levels. rewrite Hmin. simpl.
      rewrite He. repeat split; try discriminate; auto. }
  rewrite (bind_lift (RadarDiagram.rgrid_levels data)).
  destruct (RadarDiagram.rgrid_levels data) as [lv|e] eqn:Hlv.
  2:{ exists [], None, None, None. simpl.
      rewrite (rgrid_levels_raises data e Hlv).
      repeat split; try discriminate; auto. }
  rewrite (bind_run (PolarAxes.set_rgrids lv)).
  cbn [PolarAxes.set_rgrids modify].
  rewrite (bind_run (plot_loop theta28 0 data)).
  assert (Hne : (1 <= length data)%nat).
  { destruct data; [discriminate | simpl; lia]. }
  destruct (plot_loop_lines data 0 (with_rgrids (np.array lv) axes28))
    as [new [Hn [Hall [Hr Hok]]]].
  change (2 - 0)%nat with 2%nat in Hr, Hok.
  destruct (plot_loop theta28 0 data (with_rgrids (np.array lv) axes28))
    as [ax2 [[]|e]]; cbn [fst snd] in Hn, Hr, Hok; subst ax2.
  2:{ exists new, (Some (np.array lv)), None, None.
      cbn [fst snd is_ok andb].
      cbn [raisesb] in *. rewrite Hr. repeat split; try discriminate; auto.
      intros lv' H. congruence. }
  rewrite (bind_run (RadarAxes.set_varlabels label)).
  unfold RadarAxes.set_varlabels, PolarAxes.set_thetagrids.
  cbn [ax_class with_lines with_rgrids axes28 theta radar28].
  rewrite degrees_theta28_length.
  destruct ((length label =? 28)%nat || (length label =? 0)%nat).
  - destruct (Hok eq_refl) as [Hlen Hle].
    exists new, (Some (np.array lv)), (Some (np.degrees theta28, label)),
      (Some (draw_legend (length data))).
    cbn [fst snd is_ok andb raisesb PolarAxes.legend] in *.
    cbn [ax_lines ax_polygons with_thetagrids with_lines with_rgrids
         axes28 app length].
    rewrite Nat.add_0_r, Hlen.
    repeat split; auto; try congruence.
    match goal with
    | H : Ok _ = Ok _ |- _ => injection H as <-; reflexivity
    end.
  - exists new, (Some (np.array lv)), (Some (np.degrees theta28, [])), None.
    cbn [fst snd is_ok andb raisesb exn_type exn_class_eqb] in *.
    repeat split; auto; try congruence; try discriminate.
Qed.

Lemma draw_axes_valid (data : list (list num)) (label : list string) :
  valid_input data label ->
  exists levels,
    RadarDiagram.rgrid_levels data = Ok levels
    /\ draw_axes data label axes28
       = (drawn (plotted_lines data) (Some (np.array levels))
                (Some (np.degrees theta28, label))
                (Some (draw_legend (length data))),
          Ok (draw_legend (length data))).
Proof.
  intros [[Hlo Hhi] [Hrows Hlab]].
  assert (Hne : data <> []) by (destruct data; [simpl in Hlo; lia | discriminate]).
  destruct (levels_of_rows data 27 Hrows Hne)
    as [[avg Havg] [mn [mx [Hmn Hmx]]]].
  pose proof (rgrid_levels_ok data mn mx Hmn Hmx) as Hlv.
  set (lv := [mn; Num.truediv (Num.add mn mx) 2;
              Num.truediv (Num.mul mx (Int64 3)) 4; mx]) in *.
  exists lv.
  split; [exact Hlv|].
  unfold draw_axes. rewrite (bind_lift (np.average data)), Havg.
  rewrite (bind_lift (RadarDiagram.rgrid_levels data)), Hlv.
  rewrite (bind_run (PolarAxes.set_rgrids _)).
  cbn [PolarAxes.set_rgrids modify].
  rewrite (bind_run (plot_loop theta28 0 data)).
  assert (Hloop :
            plot_loop theta28 0 data (with_rgrids (np.array lv) axes28)
            = (drawn (plotted_lines data) (Some (np.array lv)) None None,
               Ok tt)).
  { destruct data as [|s1 [|s2 [|s3 rest]]]; simpl in Hlo, Hhi; try lia.
    - inversion Hrows as [|? ? H1 _]; subst.
      rewrite plot_loop_cons. cbn [list_getitem nth_error RadarDiagram.colors].
      rewrite (plot28_ok s1 "b" _ H1). reflexivity.
    - inversion Hrows as [|? ? H1 Hr2]; subst.
      inversion Hr2 as [|? ? H2 _]; subst.
      rewrite plot_loop_cons. cbn [list_getitem nth_error RadarDiagram.colors].
      rewrite (plot28_ok s1 "b" _ H1).
      rewrite plot_loop_cons. cbn [list_getitem nth_error RadarDiagram.colors].
      rewrite (plot28_ok s2 "r" _ H2). reflexivity. }
  rewrite Hloop.
  rewrite (bind_run (RadarAxes.set_varlabels label)).
  unfold RadarAxes.set_varlabels, PolarAxes.set_thetagrids.
  cbn [ax_class drawn theta radar28].
  rewrite degrees_theta28_length.
  replace ((length label =? 28)%nat || (length label =? 0)%nat) with true.
  - assert (Hlen : length (plotted_lines data) = length data).
    { destruct data as [|s1 [|s2 [|s3 rest]]]; simpl in Hlo, Hhi; try lia;
        reflexivity. }
    unfold PolarAxes.legend.
    cbn [ax_lines ax_polygons with_thetagrids drawn length].
    rewrite Nat.add_0_r, Hlen. reflexivity.
  - symmetry. apply orb_true_iff.
    destruct Hlab as [H|H]; [left | right; subst label; reflexivity].
    apply Nat.eqb_eq. exact H.
Qed.

(* ------------------------------------------------------------------ *)
(** ** What [draw] leaves in the pyplot state *)

Lemma drawn_axes_last p fs ax adj txt fl o :
  drawn_axes {| projections := p; figures := fs ++ [draw_figure ax adj txt];
                files := fl; savefig_outcome := o |} = Some ax.
Proof.
  unfold drawn_axes, drawn_figure. simpl figures.
  rewrite length_app. simpl length.
  replace (pred (length fs + 1)) with (length fs) by lia.
  rewrite nth_error_snoc. reflexivity.
Qed.

Lemma draw_state (filename : string) (data : list (list num))
      (label : list string) (title : string) (w : World) :
  exists txt fl,
    fst (RadarDiagram.draw filename data label title w)
    = after_draw w
        (draw_figure (fst (draw_axes data label axes28))
                     (Some draw_adjust) txt) fl
    /\ snd (RadarDiagram.draw filename data label title w)
       = match snd (draw_axes data label axes28) with
         | Ok _ => save_result (savefig_outcome w filename)
         | Raise e => Raise e
         end.
Proof.
  rewrite draw_run.
  destruct (draw_axes data label axes28) as [ax [l|e]]; simpl;
    eexists; eexists; split; reflexivity.
Qed.

Lemma drawn_axes_after (w : World) ax adj txt fl :
  drawn_axes (after_draw w (draw_figure ax adj txt) fl) = Some ax.
Proof. apply drawn_axes_last. Qed.

(** [savefig] raises no [IndexError]. *)
Lemma raisesb_save {A} (r : result A) (o : save_outcome) :
  raisesb IndexError
          match r with Ok _ => save_result o | Raise e => Raise e end
  = raisesb IndexError r.
Proof. destruct r; [destruct o|]; reflexivity. Qed.

Lemma raisesb_unit {A} (c : exn_class) (r : result A) :
  raisesb c match r with Ok _ => Ok tt | Raise e => Raise e end
  = raisesb c r.
Proof. destruct r; reflexivity. Qed.

Lemma raisesb_raises {A} (c : exn_class) (r : result A) :
  raisesb c r = true -> raises c r.
Proof.
  destruct r as [a|[t msg]]; simpl; [discriminate|].
  intros H. exists msg. destruct t, c; simpl in H; try discriminate;
    reflexivity.
Qed.

(* ------------------------------------------------------------------ *)
(** ** The radial grid *)












(* ------------------------------------------------------------------ *)
(** ** One figure, saved *)

(** C5.  On a valid call (one or two series of 28 numbers each, none of
    them nan; 28 spoke labels or none; a file name under which the figure
    can be written) [draw] returns normally, having created exactly one
    figure and saved it under [filename].  The saved figure is the
    finished one: its axes carry the spoke labels [label] at the 28 angles
    (in degrees); the four radial grid levels, from the minimum of the
    data to its maximum; the legend, which shows one of the fixed texts
    for each series; and one closed line per series; and the figure
    carries the title text. *)
Theorem draw_renders_and_saves (filename : string)
        (data : list (list num)) (label : list string) (title : string)
        (w : World) :
  valid_call w filename data label ->
  exists fig ax lg mn mx,
    RadarDiagram.draw filename data label title w
    = ({| projections := ("radar", radar28) :: projections w;
          figures := figures w ++ [fig];
          files := files w ++ [(filename, fig)];
          savefig_outcome := savefig_outcome w |}, Ok tt)
    /\ fig_axes fig = Some ax
    /\ ax_thetagrids ax = Some (np.degrees theta28, label)
    /\ np.min data = Ok mn
    /\ np.max data = Ok mx
    /\ ax_rgrids ax
       = Some (np.array [mn; Num.truediv (Num.add mn mx) 2;
                         Num.truediv (Num.mul mx (Int64 3)) 4; mx])
    /\ ax_legend ax = Some lg
    /\ legend_labels lg
       = firstn (length data)
                [ "Начальные вычисления";
                  "Вычисления через 1/4 проходов";
                  "Вычисления через 3/4 проходов";
                  "Конечные вычисления" ]
    /\ legend_loc lg = (- (13 # 100), 99 # 100)
    /\ fig_texts fig = [title_text title]
    /\ ax_lines ax = plotted_lines data.
Proof.
  intros [Hvalid [_ Hsave]].
  destruct (draw_axes_valid data label Hvalid) as [levels [Hlv Hrun]].
  destruct Hvalid as [[Hlo Hhi] [Hrows Hlab]].
  assert (Hne : data <> [])
    by (destruct data; [simpl in Hlo; lia | discriminate]).
  destruct (levels_of_rows data 27 Hrows Hne)
    as [_ [mn [mx [Hmn Hmx]]]].
  rewrite (rgrid_levels_ok data mn mx Hmn Hmx) in Hlv.
  injection Hlv as <-.
  rewrite draw_run, Hrun, Hsave.
  eexists. eexists. eexists. exists mn, mx.
  split; [reflexivity|]. repeat split; assumption.
Qed.

Lemma draw_renders_and_saves_witness :
  exists fig ax lg mn mx,
    RadarDiagram.draw "radar.png" [series_a; series_b] labels_a "title"
                      empty_world
    = ({| projections := ("radar", radar28) :: projections empty_world;
          figures := figures empty_world ++ [fig];
          files := files empty_world ++ [("radar.png", fig)];
          savefig_outcome := savefig_outcome empty_world |}, Ok tt)
    /\ fig_axes fig = Some ax
    /\ ax_thetagrids ax = Some (np.degrees theta28, labels_a)
    /\ np.min [series_a; series_b] = Ok mn
    /\ np.max [series_a; series_b] = Ok mx
    /\ ax_rgrids ax
       = Some (np.array [mn; Num.truediv (Num.add mn mx) 2;
                         Num.truediv (Num.mul mx (Int64 3)) 4; mx])
    /\ ax_legend ax = Some lg
    /\ legend_labels lg
       = firstn (length [series_a; series_b])
                [ "Начальные вычисления";
                  "Вычисления через 1/4 проходов";
                  "Вычисления через 3/4 проходов";
                  "Конечные вычисления" ]
    /\ legend_loc lg = (- (13 # 100), 99 # 100)
    /\ fig_texts fig = [title_text "title"]
    /\ ax_lines ax = plotted_lines [series_a; series_b].
Proof.
  apply (draw_renders_and_saves "radar.png" [series_a; series_b] labels_a
                                "title" empty_world).
  unfold valid_call, valid_input.
  split; [|split; reflexivity].
  simpl. repeat split; try lia; repeat constructor.
Defined.

(* ------------------------------------------------------------------ *)
(** ** Always 28 axes and a polygon *)

(** C8.  Whatever the arguments and whatever the outcome, [draw] calls
    [radar_factory(28, frame='polygon')]: afterwards the projection
    'radar' is the class with 28 variables, the polygon frame and the 28
    angles [k * 2 * pi / 28] of [np.linspace(0, 2 * pi, 28,
    endpoint=False)]; the one new
    figure has axes of that class, with the 28-sided polygon as patch; and
    every line on these axes is drawn against those 28 angles (closed by a
    copy of the first). *)
Theorem draw_always_28_polygon (filename : string)
        (data : list (list num)) (label : list string) (title : string)
        (w : World) :
  exists fig ax,
    get_projection_class
      "radar"
      (projections (fst (RadarDiagram.draw filename data label title w)))
    = Ok {| name := "radar"; RESOLUTION := 1; num_vars := 28;
            frame := "polygon"; theta := theta28 |}
    /\ np.linspace 0 (2 * np.pi) 28 = Ok theta28
    /\ length theta28 = 28%nat
    /\ (forall k, (k < 28)%nat ->
          exists a,
            nth_error theta28 k = Some (Float64 a)
            /\ a == inject_Z (Z.of_nat k) * 2 * np.pi / 28)
    /\ figures (fst (RadarDiagram.draw filename data label title w))
       = figures w ++ [fig]
    /\ fig_axes fig = Some ax
    /\ ax_class ax = {| name := "radar"; RESOLUTION := 1; num_vars := 28;
                        frame := "polygon"; theta := theta28 |}
    /\ ax_patch ax = RegularPolygon (1 # 2, 1 # 2) 28 (1 # 2) "k"
    /\ Forall (fun l =>
                 xdata l = np.append theta28 (hd (Float64 0) theta28))
              (ax_lines ax).
Proof.
  destruct (draw_state filename data label title w) as [txt [fl [Hs _]]].
  destruct (draw_axes_summary data label)
    as [lines [rg [tg [lg [Hax [Hlines _]]]]]].
  rewrite Hs, Hax. eexists. eexists.
  split; [reflexivity|]. split; [reflexivity|].
  split; [reflexivity|]. split; [exact theta28_nth|].
  split; [reflexivity|]. split; [reflexivity|].
  split; [reflexivity|]. split; [reflexivity|]. exact Hlines.
Qed.

(* ------------------------------------------------------------------ *)
(** ** Two colours *)

(** C9.  [draw] indexes the two-element list of colours by the position
    of the series.  With at most two series every lookup succeeds and
    [draw] raises no [IndexError].  With three or more series of 28 values
    each, [draw] raises [IndexError]: the first two series are plotted and
    the lookup for the third fails. *)
Theorem draw_colors_two_series (filename : string)
        (data : list (list num)) (label : list string) (title : string)
        (w : World) :
  ((length data <= 2)%nat ->
   (forall ind, (ind < length data)%nat ->
                exists c, list_getitem RadarDiagram.colors ind = Ok c)
   /\ raisesb IndexError
              (snd (RadarDiagram.draw filename data label title w)) = false)
  /\ ((3 <= length data)%nat ->
      Forall (fun i => length i = 28%nat) data ->
      raises IndexError
             (snd (RadarDiagram.draw filename data label title w))).
Proof.
  destruct (draw_state filename data label title w) as [txt [fl [_ Hr]]].
  destruct (draw_axes_summary data label)
    as [lines [rg [tg [lg [_ [_ [_ [_ Hidx]]]]]]]].
  rewrite Hr, raisesb_save, Hidx. split.
  - intros Hlen. split.
    + intros ind Hind. unfold list_getitem.
      destruct (nth_error RadarDiagram.colors ind) as [c|] eqn:Hc; eauto.
      apply nth_error_None in Hc. simpl in Hc. lia.
    + replace (2 <? length data)%nat with false
        by (symmetry; apply Nat.ltb_ge; exact Hlen).
      rewrite andb_false_r. reflexivity.
  - intros Hlen Hrows.
    apply raisesb_raises. rewrite raisesb_save, Hidx.
    assert (Hne : data <> [])
      by (destruct data; [simpl in Hlen; lia | discriminate]).
    destruct (levels_of_rows data 27 Hrows Hne)
      as [_ [mn [mx [Hmn Hmx]]]].
    rewrite (rgrid_levels_ok data mn mx Hmn Hmx).
    replace (2 <? length data)%nat with true
      by (symmetry; apply Nat.ltb_lt; lia).
    simpl. apply forallb_forall. intros i Hi. apply Nat.eqb_eq.
    rewrite Forall_forall in Hrows. apply Hrows.
    rewrite <- (firstn_skipn 2 data). apply in_or_app. left. exact Hi.
Qed.

Lemma draw_colors_two_series_witness :
  ((forall ind, (ind < length [series_a; series_b])%nat ->
                exists c, list_getitem RadarDiagram.colors ind = Ok c)
   /\ raisesb IndexError
              (snd (RadarDiagram.draw "radar.png" [series_a; series_b]
                                      labels_a "title" empty_world))
      = false)
  /\ raises IndexError
            (snd (RadarDiagram.draw "radar.png"
                                    [series_a; series_b; series_a]
                                    labels_a "title" empty_world)).
Proof.
  split.
  - apply (proj1 (draw_colors_two_series
                    "radar.png" [series_a; series_b] labels_a "title"
                    empty_world)).
    simpl. lia.
  - apply (proj2 (draw_colors_two_series
                    "radar.png" [series_a; series_b; series_a] labels_a
                    "title" empty_world)).
    + simpl. lia.
    + repeat constructor.
Defined.

(** Three series of one value each: the first call of [plot] raises
    [ValueError] (one value against 28 angles), and no [IndexError] is
    raised. *)
Lemma draw_three_short_series :
  length [floats [1]; floats [1]; floats [1]] = 3%nat
  /\ raisesb ValueError
             (snd (RadarDiagram.draw "radar.png"
                     [floats [1]; floats [1]; floats [1]] labels_a
                     "title" empty_world)) = true
  /\ raisesb IndexError
             (snd (RadarDiagram.draw "radar.png"
                     [floats [1]; floats [1]; floats [1]] labels_a
                     "title" empty_world)) = false.
Proof. vm_compute. repeat split. Qed.

(* ------------------------------------------------------------------ *)
(** ** The legend *)

(** C10.  The legend does not depend on the file name, the labels, the
    title or the values of the data, but it does depend on the number of
    series: [legend] pairs the four fixed texts with the lines on the
    axes, so after a call of [draw] that returns normally the legend shows
    the first text for one series and the first two texts for two.  Any
    two such calls with the same number of series leave the same legend;
    two calls with different numbers of series leave different legend
    texts. *)
Theorem legend_independent_of_arguments
        (filename1 filename2 : string) (data1 data2 : list (list num))
        (label1 label2 : list string) (title1 title2 : string)
        (w1 w2 : World) :
  snd (RadarDiagram.draw filename1 data1 label1 title1 w1) = Ok tt ->
  snd (RadarDiagram.draw filename2 data2 label2 title2 w2) = Ok tt ->
  exists ax1 ax2 lg1 lg2,
    drawn_axes (fst (RadarDiagram.draw filename1 data1 label1 title1 w1))
    = Some ax1
    /\ drawn_axes (fst (RadarDiagram.draw filename2 data2 label2 title2 w2))
       = Some ax2
    /\ ax_legend ax1 = Some lg1
    /\ ax_legend ax2 = Some lg2
    /\ (1 <= length data1 <= 2)%nat
    /\ (1 <= length data2 <= 2)%nat
    /\ legend_labels lg1
       = firstn (length data1)
                [ "Начальные вычисления";
                  "Вычисления через 1/4 проходов";
                  "Вычисления через 3/4 проходов";
                  "Конечные вычисления" ]
    /\ legend_labels lg2
       = firstn (length data2)
                [ "Начальные вычисления";
                  "Вычисления через 1/4 проходов";
                  "Вычисления через 3/4 проходов";
                  "Конечные вычисления" ]
    /\ (length data1 = length data2 <-> lg1 = lg2)
    /\ (length data1 = length data2
        <-> legend_labels lg1 = legend_labels lg2).
Proof.
  intros H1 H2.
  destruct (draw_state filename1 data1 label1 title1 w1)
    as [txt1 [fl1 [Hs1 Hr1]]].
  destruct (draw_state filename2 data2 label2 title2 w2)
    as [txt2 [fl2 [Hs2 Hr2]]].
  destruct (draw_axes_summary data1 label1)
    as [ls1 [rg1 [tg1 [lg1 [Hax1 [_ [_ [Hl1 _]]]]]]]].
  destruct (draw_axes_summary data2 label2)
    as [ls2 [rg2 [tg2 [lg2 [Hax2 [_ [_ [Hl2 _]]]]]]]].
  rewrite Hr1 in H1. rewrite Hr2 in H2.
  destruct (snd (draw_axes data1 label1 axes28)) as [l1|e1];
    [|discriminate].
  destruct (snd (draw_axes data2 label2 axes28)) as [l2|e2];
    [|discriminate].
  destruct (Hl1 l1 eq_refl) as [_ [Hlg1 [_ [_ Hn1]]]].
  destruct (Hl2 l2 eq_refl) as [_ [Hlg2 [_ [_ Hn2]]]].
  rewrite Hs1, Hs2, !drawn_axes_after, Hax1, Hax2.
  exists (drawn ls1 rg1 tg1 lg1), (drawn ls2 rg2 tg2 lg2),
    (draw_legend (length data1)), (draw_legend (length data2)).
  split; [reflexivity|]. split; [reflexivity|].
  split; [exact Hlg1|]. split; [exact Hlg2|].
  split; [exact Hn1|]. split; [exact Hn2|].
  split; [reflexivity|]. split; [reflexivity|].
  assert (Hiff : length data1 = length data2
                 <-> legend_labels (draw_legend (length data1))
                     = legend_labels (draw_legend (length data2))).
  { split; [intros ->; reflexivity|].
    destruct Hn1 as [Ha1 Hb1]. destruct Hn2 as [Ha2 Hb2].
    destruct (length data1) as [|[|[|n1]]]; try lia;
      destruct (length data2) as [|[|[|n2]]]; try lia;
      simpl; intros H; try reflexivity; discriminate. }
  split; [|exact Hiff].
  split; [intros ->; reflexivity|].
  intros H. apply Hiff. rewrite H. reflexivity.
Qed.

Lemma legend_independent_of_arguments_witness :
  exists ax1 ax2 lg1 lg2,
    drawn_axes (fst (RadarDiagram.draw "a.png" [series_a] labels_a "A"
                                       empty_world))
    = Some ax1
    /\ drawn_axes (fst (RadarDiagram.draw "b.png" [series_b]
                                          labels_b "B" empty_world))
       = Some ax2
    /\ ax_legend ax1 = Some lg1
    /\ ax_legend ax2 = Some lg2
    /\ (1 <= length [series_a] <= 2)%nat
    /\ (1 <= length [series_b] <= 2)%nat
    /\ legend_labels lg1
       = firstn (length [series_a])
                [ "Начальные вычисления";
                  "Вычисления через 1/4 проходов";
                  "Вычисления через 3/4 проходов";
                  "Конечные вычисления" ]
    /\ legend_labels lg2
       = firstn (length [series_b])
                [ "Начальные вычисления";
                  "Вычисления через 1/4 проходов";
                  "Вычисления через 3/4 проходов";
                  "Конечные вычисления" ]
    /\ (length [series_a] = length [series_b] <-> lg1 = lg2)
    /\ (length [series_a] = length [series_b]
        <-> legend_labels lg1 = legend_labels lg2).
Proof.
  apply (legend_independent_of_arguments
           "a.png" "b.png" [series_a] [series_b]
           labels_a labels_b "A" "B" empty_world empty_world);
    vm_compute; reflexivity.
Defined.

(** Two calls of [draw] that return normally, with different labels: the
    one with one series leaves a legend of one text, the one with two
    series a legend of two. *)
Lemma legend_depends_on_series :
  snd (RadarDiagram.draw "a.png" [series_a] labels_a "A" empty_world)
  = Ok tt
  /\ snd (RadarDiagram.draw "b.png" [series_b; series_a] labels_b "B"
                            empty_world)
     = Ok tt
  /\ drawn_legend_labels
       (fst (RadarDiagram.draw "a.png" [series_a] labels_a "A"
                               empty_world))
     = Some [ "Начальные вычисления" ]
  /\ drawn_legend_labels
       (fst (RadarDiagram.draw "b.png" [series_b; series_a] labels_b "B"
                               empty_world))
     = Some [ "Начальные вычисления";
              "Вычисления через 1/4 проходов" ].
Proof. vm_compute. repeat split. Qed.

(* ------------------------------------------------------------------ *)
(** ** More on closing and plotting a line *)

Lemma close_line_cases (line : Line2D) :
  (xdata line = []
   /\ RadarAxes._close_line line = (line, np.out_of_bounds))
  \/ (exists x0 xl,
         np.first (xdata line) = Ok x0 /\ np.last (xdata line) = Ok xl
         /\ Num.eqb x0 xl = true
         /\ RadarAxes._close_line line = (line, Ok tt))
  \/ (exists x0 xl,
         np.first (xdata line) = Ok x0 /\ np.last (xdata line) = Ok xl
         /\ Num.ne x0 xl = true /\ ydata line = []
         /\ RadarAxes._close_line line = (line, np.out_of_bounds))
  \/ (exists x0 xl y0,
         np.first (xdata line) = Ok x0 /\ np.last (xdata line) = Ok xl
         /\ Num.ne x0 xl = true /\ np.first (ydata line) = Ok y0
         /\ RadarAxes._close_line line
            = ({| xdata := xdata line ++ [x0]; ydata := ydata line ++ [y0];
                  color := color line |}, Ok tt)).
Proof.
  destruct (np.first (xdata line)) as [x0|e] eqn:Hx0.
  - destruct (first_last_some _ _ Hx0) as [xl Hxl].
    destruct (Num.eqb x0 xl) eqn:He.
    + right. left. exists x0, xl. repeat split; auto.
      apply (close_line_closed line x0 xl Hx0 Hxl He).
    + apply num_ne_eqb in He.
      destruct (np.first (ydata line)) as [y0|e] eqn:Hy0.
      * right. right. right. exists x0, xl, y0. repeat split; auto.
        apply (close_line_open line x0 xl y0 Hx0 Hxl He Hy0).
      * right. right. left. exists x0, xl.
        assert (Hy : ydata line = [])
          by (destruct (ydata line); [reflexivity | discriminate]).
        repeat split; auto.
        unfold RadarAxes._close_line, bind, Line.get_data, lift.
        rewrite Hx0, Hxl, He, Hy. reflexivity.
  - left.
    assert (Hx : xdata line = [])
      by (destruct (xdata line); [reflexivity | discriminate]).
    split; [exact Hx|].
    unfold RadarAxes._close_line, bind, Line.get_data, lift.
    rewrite Hx. reflexivity.
Qed.

(** X1.  [_close_line] raises only [IndexError], and it then leaves the
    line as it was.  It raises in two cases and in no other: for a line
    without x values, and for an open line (its first x differs from its
    last x) without y values. *)
Theorem close_line_raises_index_error (line : Line2D) :
  (forall e,
      snd (RadarAxes._close_line line) = Raise e ->
      exn_type e = IndexError
      /\ fst (RadarAxes._close_line line) = line
      /\ (xdata line = []
          \/ (ydata line = []
              /\ exists x0 xl,
                  np.first (xdata line) = Ok x0
                  /\ np.last (xdata line) = Ok xl
                  /\ Num.ne x0 xl = true)))
  /\ (xdata line = [] ->
      fst (RadarAxes._close_line line) = line
      /\ raises IndexError (snd (RadarAxes._close_line line)))
  /\ (forall x0 xl,
         np.first (xdata line) = Ok x0 ->
         np.last (xdata line) = Ok xl ->
         Num.ne x0 xl = true ->
         ydata line = [] ->
         fst (RadarAxes._close_line line) = line
         /\ raises IndexError (snd (RadarAxes._close_line line))).
Proof.
  split; [|split].
  - destruct (close_line_cases line)
      as [[Hx H] | [[x0 [xl [_ [_ [_ H]]]]]
         | [[x0 [xl [Hx0 [Hxl [Hne [Hy H]]]]]]
           | [x0 [xl [y0 [_ [_ [_ [_ H]]]]]]]]]];
      rewrite H; simpl; intros e He; try discriminate;
      injection He as <-.
    + auto.
    + split; [reflexivity|]. split; [reflexivity|].
      right. split; [exact Hy|]. exists x0, xl. auto.
  - intros Hx.
    unfold RadarAxes._close_line, bind, Line.get_data, lift.
    rewrite Hx. simpl. split; [reflexivity|]. eexists. reflexivity.
  - intros x0 xl Hx0 Hxl Hne Hy.
    unfold RadarAxes._close_line, bind, Line.get_data, lift.
    rewrite Hx0, Hxl, Hne, Hy. simpl.
    split; [reflexivity|]. eexists. reflexivity.
Qed.

Lemma close_line_raises_index_error_witness :
  fst (RadarAxes._close_line {| xdata := []; ydata := []; color := "b" |})
  = {| xdata := []; ydata := []; color := "b" |}
  /\ raises IndexError
       (snd (RadarAxes._close_line
               {| xdata := []; ydata := []; color := "b" |})).
Proof.
  apply (proj1 (proj2 (close_line_raises_index_error
                         {| xdata := []; ydata := []; color := "b" |}))).
  reflexivity.
Defined.

(** X2.  [_close_line] only ever appends: the data before the call is a
    prefix of the data after it, at most one point is added, x and y grow
    by the same number of values, and the colour stays. *)
Theorem close_line_appends (line : Line2D) :
  exists sx sy,
    xdata (fst (RadarAxes._close_line line)) = xdata line ++ sx
    /\ ydata (fst (RadarAxes._close_line line)) = ydata line ++ sy
    /\ length sx = length sy
    /\ (length sx <= 1)%nat
    /\ color (fst (RadarAxes._close_line line)) = color line.
Proof.
  destruct (close_line_cases line)
    as [[Hx H] | [[x0 [xl [_ [_ [_ H]]]]]
       | [[x0 [xl [_ [_ [_ [Hy H]]]]]]
         | [x0 [xl [y0 [_ [_ [_ [_ H]]]]]]]]]];
    rewrite H; simpl.
  1-3: exists [], []; rewrite !app_nil_r; repeat split; auto.
  exists [x0], [y0]. repeat split; auto.
Qed.

Lemma plot_same_length (x y : list num) (c : string) (ax : Axes) :
  length x = length y ->
  RadarAxes.plot x y c ax
  = (with_lines
       (fun ls =>
          ls ++ [fst (RadarAxes._close_line
                        {| xdata := x; ydata := y; color := c |})]) ax,
     snd (RadarAxes._close_line {| xdata := x; ydata := y; color := c |})).
Proof.
  intros Hlen. apply Nat.eqb_eq in Hlen.
  unfold RadarAxes.plot, bind, PolarAxes.plot. rewrite Hlen.
  simpl for_each. unfold bind, on_line, at_index. simpl ax_lines.
  rewrite nth_error_snoc.
  destruct (RadarAxes._close_line {| xdata := x; ydata := y; color := c |})
    as [l' [[]|e]]; rewrite set_nth_snoc; reflexivity.
Qed.

(** X3.  Plotting empty data raises [IndexError], and the exception does
    not undo the inherited [plot]: the empty line stays on the axes. *)
Theorem plot_empty_leaves_line (c : string) (ax : Axes) :
  ax_lines (fst (RadarAxes.plot [] [] c ax))
  = ax_lines ax ++ [{| xdata := []; ydata := []; color := c |}]
  /\ raises IndexError (snd (RadarAxes.plot [] [] c ax)).
Proof.
  rewrite (plot_same_length [] [] c ax eq_refl). simpl.
  split; [reflexivity|]. eexists. reflexivity.
Qed.

(** X4.  [plot] leaves alone what is on the axes: the lines already
    there keep their place and their data, at most one line is added after
    them, and nothing else of the axes changes.  When [x] and [y] differ
    in length the call raises [ValueError] and the axes are as before. *)
Theorem plot_keeps_axes (x y : list num) (c : string) (ax : Axes) :
  (exists new,
      fst (RadarAxes.plot x y c ax) = with_lines (fun ls => ls ++ new) ax
      /\ (length new <= 1)%nat)
  /\ (length x <> length y ->
      fst (RadarAxes.plot x y c ax) = ax
      /\ raises ValueError (snd (RadarAxes.plot x y c ax))).
Proof.
  split.
  - destruct (Nat.eq_dec (length x) (length y)) as [Hlen|Hlen].
    + rewrite (plot_same_length x y c ax Hlen). simpl.
      eexists. split; [reflexivity | simpl; lia].
    + rewrite (plot_shape_mismatch x y c ax Hlen). simpl.
      exists []. rewrite with_lines_nil. split; [reflexivity | simpl; lia].
  - intros Hlen. rewrite (plot_shape_mismatch x y c ax Hlen). simpl.
    split; [reflexivity|]. eexists. reflexivity.
Qed.

Lemma plot_keeps_axes_witness :
  fst (RadarAxes.plot (floats [0; 1]) (floats [5]) "b" axes28) = axes28
  /\ raises ValueError
       (snd (RadarAxes.plot (floats [0; 1]) (floats [5]) "b" axes28)).
Proof.
  apply (proj2 (plot_keeps_axes (floats [0; 1]) (floats [5]) "b" axes28)).
  simpl. lia.
Defined.

(** X5.  A line that is given closed is not closed again: when the first
    and the last x value compare equal (a single point included), [plot]
    puts the data on the axes exactly as given. *)
Theorem plot_closed_data_unchanged (x y : list num) (c : string) (ax : Axes)
        (x0 xl : num) :
  length x = length y ->
  np.first x = Ok x0 -> np.last x = Ok xl -> Num.eqb x0 xl = true ->
  RadarAxes.plot x y c ax
  = (with_lines
       (fun ls => ls ++ [{| xdata := x; ydata := y; color := c |}]) ax,
     Ok tt).
Proof.
  intros Hlen H0 Hl He.
  rewrite (plot_same_length x y c ax Hlen).
  rewrite (close_line_closed {| xdata := x; ydata := y; color := c |}
             x0 xl H0 Hl He).
  reflexivity.
Qed.

Lemma plot_closed_data_unchanged_witness :
  RadarAxes.plot (floats [0; 1; 0]) (floats [5; 6; 5]) "r" axes28
  = (with_lines
       (fun ls => ls ++ [{| xdata := floats [0; 1; 0];
                            ydata := floats [5; 6; 5];
                            color := "r" |}]) axes28,
     Ok tt).
Proof.
  apply (plot_closed_data_unchanged (floats [0; 1; 0]) (floats [5; 6; 5])
                                    "r" axes28 (Float64 0) (Float64 0));
    reflexivity.
Defined.

(* ------------------------------------------------------------------ *)
(** ** More on the factory and the axes it makes *)

(** X6.  A negative [num_vars] makes [radar_factory] raise [ValueError]
    before anything is registered: the pyplot state is as before. *)
Theorem radar_factory_negative (num_vars : Z) (frame : string) (w : World) :
  (num_vars < 0)%Z ->
  fst (RadarDiagram.radar_factory num_vars frame w) = w
  /\ raises ValueError (snd (RadarDiagram.radar_factory num_vars frame w)).
Proof.
  intros Hn. apply Z.ltb_lt in Hn.
  unfold RadarDiagram.radar_factory, bind, lift, np.linspace.
  rewrite Hn. simpl. split; [reflexivity|]. eexists. reflexivity.
Qed.

Lemma radar_factory_negative_witness :
  fst (RadarDiagram.radar_factory (-3) "polygon" empty_world) = empty_world
  /\ raises ValueError
       (snd (RadarDiagram.radar_factory (-3) "polygon" empty_world)).
Proof.
  apply (radar_factory_negative (-3) "polygon" empty_world). lia.
Defined.

Lemma radar_factory_run (num_vars : Z) (frame : string) (w : World) :
  (0 <= num_vars)%Z ->
  exists theta,
    np.linspace 0 (2 * np.pi) num_vars = Ok theta
    /\ length theta = Z.to_nat num_vars
    /\ RadarDiagram.radar_factory num_vars frame w
       = ({| projections :=
               ("radar",
                {| name := "radar"; RESOLUTION := 1; num_vars := num_vars;
                   frame := frame; theta := theta |}) :: projections w;
             figures := figures w; files := files w;
             savefig_outcome := savefig_outcome w |}, Ok theta).
Proof.
  intros Hn.
  unfold RadarDiagram.radar_factory, bind, lift, np.linspace.
  destruct (num_vars <? 0)%Z eqn:E; [apply Z.ltb_lt in E; lia|].
  eexists. split; [reflexivity|]. split; [|reflexivity].
  rewrite length_map, length_seq. reflexivity.
Qed.

(** X7.  For [num_vars >= 0] and any [frame], valid or not,
    [radar_factory] returns normally, and afterwards the projection
    'radar' is the class of this call, whatever was registered under that
    name before; figures and files are untouched. *)
Theorem radar_factory_registers_latest (num_vars : Z) (frame : string)
        (w : World) :
  (0 <= num_vars)%Z ->
  exists theta,
    snd (RadarDiagram.radar_factory num_vars frame w) = Ok theta
    /\ length theta = Z.to_nat num_vars
    /\ get_projection_class
         "radar"
         (projections (fst (RadarDiagram.radar_factory num_vars frame w)))
       = Ok {| name := "radar"; RESOLUTION := 1; num_vars := num_vars;
               frame := frame; theta := theta |}
    /\ figures (fst (RadarDiagram.radar_factory num_vars frame w))
       = figures w
    /\ files (fst (RadarDiagram.radar_factory num_vars frame w)) = files w.
Proof.
  intros Hn.
  destruct (radar_factory_run num_vars frame w Hn) as [theta [_ [Hlen H]]].
  exists theta. rewrite H. simpl. repeat split; auto.
Qed.

Lemma radar_factory_registers_latest_witness :
  exists theta,
    snd (RadarDiagram.radar_factory
           5 "square"
           (fst (RadarDiagram.radar_factory 28 "polygon" empty_world)))
    = Ok theta
    /\ length theta = Z.to_nat 5
    /\ get_projection_class
         "radar"
         (projections
            (fst (RadarDiagram.radar_factory
                    5 "square"
                    (fst (RadarDiagram.radar_factory 28 "polygon"
                                                     empty_world)))))
       = Ok {| name := "radar"; RESOLUTION := 1; num_vars := 5;
               frame := "square"; theta := theta |}
    /\ figures
         (fst (RadarDiagram.radar_factory
                 5 "square"
                 (fst (RadarDiagram.radar_factory 28 "polygon"
                                                  empty_world))))
       = figures (fst (RadarDiagram.radar_factory 28 "polygon" empty_world))
    /\ files
         (fst (RadarDiagram.radar_factory
                 5 "square"
                 (fst (RadarDiagram.radar_factory 28 "polygon"
                                                  empty_world))))
       = files (fst (RadarDiagram.radar_factory 28 "polygon" empty_world)).
Proof.
  apply (radar_factory_registers_latest
           5 "square"
           (fst (RadarDiagram.radar_factory 28 "polygon" empty_world))).
  lia.
Defined.

Lemma init_run (cls : RadarAxesClass) :
  RadarAxes.__init__ cls
  = match RadarAxes._gen_axes_spines cls, RadarAxes._gen_axes_patch cls with
    | Ok spines, Ok patch =>
        Ok {| ax_class := cls; ax_spines := spines; ax_patch := patch;
              theta_zero_location := "N";
              ax_lines := []; ax_polygons := [];
              ax_rgrids := None; ax_thetagrids := None;
              ax_legend := None |}
    | Raise e, _ => Raise e
    | Ok _, Raise e => Raise e
    end.
Proof.
  unfold RadarAxes.__init__, rbind.
  destruct (RadarAxes._gen_axes_spines cls); [|reflexivity].
  destruct (RadarAxes._gen_axes_patch cls); reflexivity.
Qed.

(** X8.  An axes object can be built exactly for the frames 'circle' and
    'polygon'.  A new axes object is of the given class, has its zero
    angle at the top ('N') and carries no line, polygon, grid or legend;
    for any other frame the constructor raises the [ValueError] that names
    the frame. *)
Theorem init_succeeds_iff_frame_known (cls : RadarAxesClass) :
  (is_ok (RadarAxes.__init__ cls) = true
   <-> frame cls = "circle" \/ frame cls = "polygon")
  /\ (forall ax,
         RadarAxes.__init__ cls = Ok ax ->
         ax_class ax = cls /\ theta_zero_location ax = "N"
         /\ ax_lines ax = [] /\ ax_polygons ax = []
         /\ ax_rgrids ax = None /\ ax_thetagrids ax = None
         /\ ax_legend ax = None)
  /\ (forall e,
         RadarAxes.__init__ cls = Raise e ->
         e = Exn ValueError
                 (String.append "Unknown value for 'frame': " (frame cls))).
Proof.
  rewrite init_run.
  unfold RadarAxes._gen_axes_spines, RadarAxes._gen_axes_patch.
  destruct (String.eqb (frame cls) "circle") eqn:Ec.
  - apply String.eqb_eq in Ec. simpl. split; [|split].
    + split; auto.
    + intros ax H. injection H as <-. simpl. repeat split.
    + discriminate.
  - destruct (String.eqb (frame cls) "polygon") eqn:Ep.
    + apply String.eqb_eq in Ep. simpl. split; [|split].
      * split; auto.
      * intros ax H. injection H as <-. simpl. repeat split.
      * discriminate.
    + apply String.eqb_neq in Ec, Ep. simpl. split; [|split].
      * split; [discriminate | intros [H|H]; contradiction].
      * discriminate.
      * intros e H. injection H as <-. reflexivity.
Qed.

(** X9.  [radar_factory] does not check [frame]; an unknown frame shows
    only when an axes object is made.  After [radar_factory(num_vars,
    frame)] with a frame other than 'circle' and 'polygon',
    [plt.subplots(..., projection='radar')] raises the [ValueError] that
    names the frame, and the figure it has just created is left without
    axes. *)
Theorem unknown_frame_raises_at_subplots
        (num_vars : Z) (fr : string) (figsize : Q * Q) (w : World) :
  (0 <= num_vars)%Z -> fr <> "circle" -> fr <> "polygon" ->
  snd ((RadarDiagram.radar_factory num_vars fr ;;
        plt.subplots figsize "radar") w)
  = Raise (Exn ValueError
               (String.append "Unknown value for 'frame': " fr))
  /\ figures (fst ((RadarDiagram.radar_factory num_vars fr ;;
                    plt.subplots figsize "radar") w))
     = figures w ++ [{| figsize := figsize; fig_axes := None;
                        fig_adjust := None; fig_texts := [] |}].
Proof.
  intros Hn Hc Hp.
  destruct (radar_factory_run num_vars fr w Hn) as [theta [_ [_ H]]].
  rewrite bind_run, H.
  unfold plt.subplots. cbn [projections get_projection_class].
  rewrite String.eqb_refl. cbn [rbind].
  rewrite init_run.
  unfold RadarAxes._gen_axes_spines, RadarAxes._gen_axes_patch.
  cbn [frame].
  apply String.eqb_neq in Hc, Hp. rewrite Hc, Hp.
  split; reflexivity.
Qed.

Lemma unknown_frame_raises_at_subplots_witness :
  snd ((RadarDiagram.radar_factory 5 "square" ;;
        plt.subplots (12, 12) "radar") empty_world)
  = Raise (Exn ValueError
               (String.append "Unknown value for 'frame': " "square"))
  /\ figures (fst ((RadarDiagram.radar_factory 5 "square" ;;
                    plt.subplots (12, 12) "radar") empty_world))
     = figures empty_world
       ++ [{| figsize := (12, 12); fig_axes := None;
              fig_adjust := None; fig_texts := [] |}].
Proof.
  apply (unknown_frame_raises_at_subplots 5 "square" (12, 12) empty_world).
  - lia.
  - discriminate.
  - discriminate.
Defined.

Lemma pi_nonzero : ~ np.pi == 0.
Proof. intros H. vm_compute in H. discriminate. Qed.

(** X10.  [set_varlabels] puts the labels at the axis angles in degrees:
    on axes of a class made by [radar_factory(num_vars, ...)], with
    [num_vars >= 1] and one label per axis, the call succeeds and label
    [k] stands at [k * 360 / num_vars] degrees. *)
Theorem set_varlabels_degrees (n : Z) (t : list num) (labels : list string)
        (ax : Axes) :
  (1 <= n)%Z ->
  np.linspace 0 (2 * np.pi) n = Ok t ->
  theta (ax_class ax) = t ->
  length labels = Z.to_nat n ->
  RadarAxes.set_varlabels labels ax
  = (with_thetagrids (np.degrees t, labels) ax, Ok tt)
  /\ (forall k, (k < Z.to_nat n)%nat ->
        exists d,
          nth_error (np.degrees t) k = Some (Float64 d)
          /\ d == inject_Z (Z.of_nat k) * 360 / inject_Z n).
Proof.
  intros Hn Hlin Hth Hlab.
  assert (Hpos : 0 < inject_Z n) by (apply inject_Z_pos; exact Hn).
  assert (Hnz : ~ inject_Z n == 0) by lra.
  unfold np.linspace in Hlin.
  destruct (n <? 0)%Z eqn:E; [discriminate|].
  injection Hlin as <-. split.
  - unfold RadarAxes.set_varlabels, PolarAxes.set_thetagrids.
    rewrite Hth. unfold np.degrees at 1.
    rewrite !length_map, length_seq, Hlab, Nat.eqb_refl. reflexivity.
  - intros k Hk. unfold np.degrees.
    rewrite !nth_error_map, nth_error_seq.
    apply Nat.ltb_lt in Hk. rewrite Hk. simpl.
    eexists. split; [reflexivity|].
    field. split; [exact Hnz | exact pi_nonzero].
Qed.

Lemma set_varlabels_degrees_witness :
  RadarAxes.set_varlabels labels_a axes28
  = (with_thetagrids (np.degrees theta28, labels_a) axes28, Ok tt)
  /\ (forall k, (k < Z.to_nat 28)%nat ->
        exists d,
          nth_error (np.degrees theta28) k = Some (Float64 d)
          /\ d == inject_Z (Z.of_nat k) * 360 / inject_Z 28).
Proof.
  apply (set_varlabels_degrees 28 theta28 labels_a axes28).
  - lia.
  - reflexivity.
  - reflexivity.
  - reflexivity.
Defined.

(** X11.  The spine transform takes the square from (-1, -1) to (1, 1),
    which holds the unit polygon, into the axes square from (0, 0) to
    (1, 1), and loses nothing: [2 * q - 1] gives back the point. *)
Theorem spine_affine_into_axes_square (p : point) :
  -1 <= fst p <= 1 -> -1 <= snd p <= 1 ->
  0 <= fst (Affine2D.transform_point RadarAxes.spine_affine p) <= 1
  /\ 0 <= snd (Affine2D.transform_point RadarAxes.spine_affine p) <= 1
  /\ 2 * fst (Affine2D.transform_point RadarAxes.spine_affine p) - 1
     == fst p
  /\ 2 * snd (Affine2D.transform_point RadarAxes.spine_affine p) - 1
     == snd p.
Proof.
  destruct p as [x y]. simpl. intros Hx Hy.
  repeat split; lra.
Qed.

Lemma spine_affine_into_axes_square_witness :
  0 <= fst (Affine2D.transform_point RadarAxes.spine_affine (1, -1)) <= 1
  /\ 0 <= snd (Affine2D.transform_point RadarAxes.spine_affine (1, -1)) <= 1
  /\ 2 * fst (Affine2D.transform_point RadarAxes.spine_affine (1, -1)) - 1
     == fst (1, -1)
  /\ 2 * snd (Affine2D.transform_point RadarAxes.spine_affine (1, -1)) - 1
     == snd (1, -1).
Proof.
  apply (spine_affine_into_axes_square (1, -1)); simpl; lra.
Defined.

(* ------------------------------------------------------------------ *)
(** ** More on [draw] *)








Lemma plot_loop_exn (data : list (list num)) :
  forall ind ax e,
    snd (plot_loop theta28 ind data ax) = Raise e ->
    exn_type e = ValueError \/ exn_type e = IndexError.
Proof.
  induction data as [|i rest IH]; intros ind ax e.
  - discriminate.
  - rewrite plot_loop_cons. unfold list_getitem.
    destruct (nth_error RadarDiagram.colors ind) as [c|].
    + destruct (Nat.eq_dec (length i) 28) as [Hi|Hi].
      * rewrite (plot28_ok i c ax Hi). apply IH.
      * rewrite (plot28_bad i c ax Hi). simpl.
        intros H. injection H as <-. left. reflexivity.
    + simpl. intros H. injection H as <-. right. reflexivity.
Qed.

Lemma draw_axes_exn (data : list (list num)) (label : list string) (e : exn) :
  snd (draw_axes data label axes28) = Raise e ->
  exn_type e = ValueError \/ exn_type e = IndexError.
Proof.
  unfold draw_axes. rewrite (bind_lift (np.average data)).
  destruct (np.average data) as [avg|e1] eqn:Havg.
  2:{ simpl. intros H. injection H as <-. left.
      apply (average_raises data e1 Havg). }
  rewrite (bind_lift (RadarDiagram.rgrid_levels data)).
  destruct (RadarDiagram.rgrid_levels data) as [lv|e1] eqn:Hlv.
  2:{ simpl. intros H. injection H as <-. left.
      apply (rgrid_levels_raises data e1 Hlv). }
  rewrite (bind_run (PolarAxes.set_rgrids lv)).
  cbn [PolarAxes.set_rgrids modify].
  rewrite (bind_run (plot_loop theta28 0 data)).
  pose proof (plot_loop_exn data 0 (with_rgrids (np.array lv) axes28))
    as Hloop.
  destruct (plot_loop theta28 0 data (with_rgrids (np.array lv) axes28))
    as [ax2 [[]|e1]].
  2:{ simpl. intros H. injection H as <-. apply (Hloop e1). reflexivity. }
  rewrite (bind_run (RadarAxes.set_varlabels label)).
  unfold RadarAxes.set_varlabels, PolarAxes.set_thetagrids.
  destruct ((length label =? length (np.degrees (theta (ax_class ax2))))%nat
            || (length label =? 0)%nat).
  - discriminate.
  - simpl. intros H. injection H as <-. left. reflexivity.
Qed.

(** X13.  What a call of [draw] leaves behind, whatever the arguments.
    It always registers the class and always adds exactly one figure to
    those pyplot holds, which it never closes.  It writes a file exactly
    when it returns normally: the figure, under the path [savefig] chose
    for the file name.  When it raises, no file is written and the
    exception is a [ValueError], an [IndexError] or an [OSError].  Either
    the exception came before the title was set (the new figure has no
    text, and the exception is a [ValueError] or an [IndexError]), or it
    is the one of [savefig], for a format that is not supported or a path
    that cannot be written, and the figure is the finished one. *)
Theorem draw_saves_iff_returns (filename : string)
        (data : list (list num)) (label : list string) (title : string)
        (w : World) :
  exists fig,
    projections (fst (RadarDiagram.draw filename data label title w))
    = ("radar", radar28) :: projections w
    /\ figures (fst (RadarDiagram.draw filename data label title w))
       = figures w ++ [fig]
    /\ (snd (RadarDiagram.draw filename data label title w) = Ok tt ->
        exists path,
          savefig_outcome w filename = SavedAs path
          /\ files (fst (RadarDiagram.draw filename data label title w))
             = files w ++ [(path, fig)]
          /\ fig_texts fig = [title_text title])
    /\ (forall e,
           snd (RadarDiagram.draw filename data label title w) = Raise e ->
           files (fst (RadarDiagram.draw filename data label title w))
           = files w
           /\ (exn_type e = ValueError \/ exn_type e = IndexError
               \/ exn_type e = OSError)
           /\ ((fig_texts fig = []
                /\ snd (draw_axes data label axes28) = Raise e
                /\ (exn_type e = ValueError \/ exn_type e = IndexError))
               \/ (fig_texts fig = [title_text title]
                   /\ is_ok (snd (draw_axes data label axes28)) = true
                   /\ save_result (savefig_outcome w filename) = Raise e
                   /\ (exn_type e = ValueError
                       \/ exn_type e = OSError)))).
Proof.
  rewrite draw_run.
  pose proof (draw_axes_exn data label) as Hexn.
  destruct (draw_axes data label axes28) as [ax [l|e]]; cbv zeta.
  - destruct (savefig_outcome w filename) as [path| |] eqn:Ho;
      cbn [fst snd save_result saved_files after_draw projections figures
           files].
    + eexists. split; [reflexivity|]. split; [reflexivity|].
      split; [|discriminate]. intros _. exists path.
      split; [reflexivity|]. split; reflexivity.
    + eexists. split; [reflexivity|]. split; [reflexivity|].
      split; [discriminate|]. intros e' He. injection He as <-.
      rewrite app_nil_r. split; [reflexivity|]. split; [auto|].
      right. cbn [fig_texts draw_figure exn_type]. auto.
    + eexists. split; [reflexivity|]. split; [reflexivity|].
      split; [discriminate|]. intros e' He. injection He as <-.
      rewrite app_nil_r. split; [reflexivity|]. split; [auto|].
      right. cbn [fig_texts draw_figure exn_type]. auto.
  - cbn [fst snd after_draw projections figures files].
    eexists. split; [reflexivity|]. split; [reflexivity|].
    split; [discriminate|]. intros e' He. injection He as <-.
    rewrite app_nil_r. split; [reflexivity|].
    destruct (Hexn e eq_refl) as [H|H].
    + split; [auto|]. left. cbn [fig_texts draw_figure]. auto.
    + split; [auto|]. left. cbn [fig_texts draw_figure]. auto.
Qed.

(** In the sample environment the format of 'radar.xyz' is not
    supported: [draw] raises the [ValueError] of [savefig], with the title
    already on the figure, and writes no file. *)
Lemma draw_unsupported_format :
  raisesb ValueError
          (snd (RadarDiagram.draw "radar.xyz" [series_a] labels_a "title"
                                  empty_world)) = true
  /\ files (fst (RadarDiagram.draw "radar.xyz" [series_a] labels_a "title"
                                   empty_world)) = []
  /\ option_map fig_texts
       (drawn_figure (fst (RadarDiagram.draw "radar.xyz" [series_a]
                                             labels_a "title"
                                             empty_world)))
     = Some [title_text "title"].
Proof. vm_compute. repeat split. Qed.

Lemma concat_all_nil (data : list (list num)) :
  Forall (fun i => i = []) data -> concat data = [].
Proof.
  induction 1 as [|i rest Hi Hrest IH]; [reflexivity|].
  simpl in Hi. subst i. simpl. exact IH.
Qed.

Lemma draw_axes_no_values (data : list (list num)) (label : list string) :
  Forall (fun i => i = []) data ->
  draw_axes data label axes28 = (axes28, np.zero_size).
Proof.
  intros H.
  assert (Hrows : Forall (fun i => length i = 0%nat) data).
  { eapply Forall_impl; [|exact H]. intros i Hi. simpl in Hi. subst i. reflexivity. }
  unfold draw_axes, RadarDiagram.rgrid_levels, np.average, np.min.
  rewrite (asarray_rows data 0 Hrows), (concat_all_nil data H).
  reflexivity.
Qed.

(** X14.  Data without a single value (no series, or only empty series)
    makes [draw] raise [ValueError]: the minimum of nothing.  Nothing has
    been drawn on the new axes and no file is written. *)
Theorem draw_no_values (filename : string) (data : list (list num))
        (label : list string) (title : string) (w : World) :
  Forall (fun i => i = []) data ->
  raises ValueError (snd (RadarDiagram.draw filename data label title w))
  /\ drawn_axes (fst (RadarDiagram.draw filename data label title w))
     = Some axes28
  /\ files (fst (RadarDiagram.draw filename data label title w)) = files w.
Proof.
  intros H. rewrite draw_run, (draw_axes_no_values data label H).
  unfold np.zero_size. cbn [fst snd].
  rewrite drawn_axes_after. split; [eexists; reflexivity|].
  split; [reflexivity|]. simpl. apply app_nil_r.
Qed.

Lemma draw_no_values_witness :
  raises ValueError
         (snd (RadarDiagram.draw "radar.png" [] labels_a "title" empty_world))
  /\ drawn_axes
       (fst (RadarDiagram.draw "radar.png" [] labels_a "title" empty_world))
     = Some axes28
  /\ files
       (fst (RadarDiagram.draw "radar.png" [] labels_a "title" empty_world))
     = files empty_world.
Proof.
  apply (draw_no_values "radar.png" [] labels_a "title" empty_world).
  constructor.
Defined.

Lemma draw_wrong_length_run (filename : string) (data : list (list num))
      (label : list string) (title : string) (w : World) (n : nat) :
  data <> [] ->
  Forall (fun i => length i = S n) data ->
  S n <> 28%nat ->
  exists levels,
    RadarDiagram.rgrid_levels data = Ok levels
    /\ RadarDiagram.draw filename data label title w
       = (after_draw w
            (draw_figure (drawn [] (Some (np.array levels)) None None)
                         (Some draw_adjust) []) [],
          PolarAxes.shape_mismatch).
Proof.
  intros Hne Hrows Hn.
  destruct (levels_of_rows data n Hrows Hne)
    as [[avg Havg] [mn [mx [Hmn Hmx]]]].
  pose proof (rgrid_levels_ok data mn mx Hmn Hmx) as Hlv.
  eexists. split; [exact Hlv|].
  rewrite draw_run. unfold draw_axes.
  rewrite (bind_lift (np.average data)), Havg.
  rewrite (bind_lift (RadarDiagram.rgrid_levels data)), Hlv.
  rewrite (bind_run (PolarAxes.set_rgrids _)).
  cbn [PolarAxes.set_rgrids modify].
  rewrite (bind_run (plot_loop theta28 0 data)).
  destruct data as [|i rest]; [congruence|].
  inversion Hrows as [|? ? Hi _]; subst.
  rewrite plot_loop_cons.
  cbn [list_getitem nth_error RadarDiagram.colors].
  rewrite (plot28_bad i "b" _ (eq_ind_r (fun m => m <> 28%nat) Hn Hi)).
  reflexivity.
Qed.

(** X15.  Every series must have exactly 28 values.  When the series
    have one common length other than 28 (and there is a value at all),
    [draw] raises [ValueError] at the first [plot]: the grid levels are
    set, no line is on the axes, and no file is written, however many
    series there are. *)
Theorem draw_wrong_length (filename : string) (data : list (list num))
        (label : list string) (title : string) (w : World) (n : nat) :
  data <> [] ->
  Forall (fun i => length i = S n) data ->
  S n <> 28%nat ->
  raises ValueError (snd (RadarDiagram.draw filename data label title w))
  /\ (exists ax levels,
         drawn_axes (fst (RadarDiagram.draw filename data label title w))
         = Some ax
         /\ ax_lines ax = []
         /\ RadarDiagram.rgrid_levels data = Ok levels
         /\ ax_rgrids ax = Some (np.array levels))
  /\ files (fst (RadarDiagram.draw filename data label title w)) = files w.
Proof.
  intros Hne Hrows Hn.
  destruct (draw_wrong_length_run filename data label title w n
              Hne Hrows Hn) as [levels [Hlv H]].
  rewrite H. cbn [fst snd]. rewrite drawn_axes_after.
  split; [eexists; reflexivity|]. split; [|simpl; apply app_nil_r].
  eexists. exists levels. repeat split. exact Hlv.
Qed.

Lemma draw_wrong_length_witness :
  raises ValueError
         (snd (RadarDiagram.draw "radar.png" [ints [1; 2]%Z; ints [3; 4]%Z; ints [5; 6]%Z]
                                 labels_a "title" empty_world))
  /\ (exists ax levels,
         drawn_axes
           (fst (RadarDiagram.draw "radar.png" [ints [1; 2]%Z; ints [3; 4]%Z; ints [5; 6]%Z]
                                   labels_a "title" empty_world))
         = Some ax
         /\ ax_lines ax = []
         /\ RadarDiagram.rgrid_levels [ints [1; 2]%Z; ints [3; 4]%Z; ints [5; 6]%Z] = Ok levels
         /\ ax_rgrids ax = Some (np.array levels))
  /\ files
       (fst (RadarDiagram.draw "radar.png" [ints [1; 2]%Z; ints [3; 4]%Z; ints [5; 6]%Z]
                               labels_a "title" empty_world))
     = files empty_world.
Proof.
  apply (draw_wrong_length "radar.png" [ints [1; 2]%Z; ints [3; 4]%Z; ints [5; 6]%Z] labels_a
                           "title" empty_world 1).
  - discriminate.
  - repeat constructor.
  - lia.
Defined.

Lemma drawn_figure_last p fs f fl o :
  drawn_figure {| projections := p; figures := fs ++ [f]; files := fl;
                  savefig_outcome := o |}
  = Some f.
Proof.
  unfold drawn_figure. simpl figures.
  rewrite length_app. simpl length.
  replace (pred (length fs + 1)) with (length fs) by lia.
  apply nth_error_snoc.
Qed.

(** X16.  Calls of [draw] do not disturb one another.  After two valid
    calls pyplot holds two more figures and two more files, in the order
    of the calls, and each figure is the one its call would have made
    alone. *)
Theorem draw_twice_independent
        (filename1 filename2 : string) (data1 data2 : list (list num))
        (label1 label2 : list string) (title1 title2 : string)
        (w : World) :
  valid_call w filename1 data1 label1 ->
  valid_call w filename2 data2 label2 ->
  exists fig1 fig2,
    draw_twice filename1 data1 label1 title1
               filename2 data2 label2 title2 w
    = ({| projections :=
            ("radar", radar28) :: ("radar", radar28) :: projections w;
          figures := figures w ++ [fig1; fig2];
          files := files w ++ [(filename1, fig1); (filename2, fig2)];
          savefig_outcome := savefig_outcome w |},
       Ok tt)
    /\ drawn_figure
         (fst (RadarDiagram.draw filename1 data1 label1 title1 w))
       = Some fig1
    /\ drawn_figure
         (fst (RadarDiagram.draw filename2 data2 label2 title2 w))
       = Some fig2.
Proof.
  intros [Hv1 [_ Ho1]] [Hv2 [_ Ho2]].
  destruct (draw_axes_valid data1 label1 Hv1) as [lv1 [_ Hrun1]].
  destruct (draw_axes_valid data2 label2 Hv2) as [lv2 [_ Hrun2]].
  pose proof (draw_run filename1 data1 label1 title1 w) as D1.
  rewrite Hrun1, Ho1 in D1. cbv zeta in D1.
  assert (D2 : forall w',
             savefig_outcome w' = savefig_outcome w ->
             RadarDiagram.draw filename2 data2 label2 title2 w'
             = (let f :=
                  draw_figure
                    (drawn (plotted_lines data2) (Some (np.array lv2))
                           (Some (np.degrees theta28, label2))
                           (Some (draw_legend (length data2))))
                    (Some draw_adjust) [title_text title2] in
                after_draw w' f [(filename2, f)], Ok tt)).
  { intros w' Hw'. rewrite draw_run, Hrun2, Hw', Ho2. reflexivity. }
  unfold draw_twice. rewrite bind_run, D1.
  cbn [saved_files save_result]. cbv beta iota.
  rewrite (D2 w eq_refl). rewrite D2 by reflexivity.
  unfold after_draw. cbn [fst projections figures files savefig_outcome].
  eexists. eexists. split; [|split].
  - rewrite <- !app_assoc. reflexivity.
  - apply drawn_figure_last.
  - apply drawn_figure_last.
Qed.

Lemma draw_twice_independent_witness :
  exists fig1 fig2,
    draw_twice "a.png" [series_a] labels_a "A"
               "b.png" [series_b; series_a] labels_b "B" empty_world
    = ({| projections :=
            ("radar", radar28) :: ("radar", radar28)
            :: projections empty_world;
          figures := figures empty_world ++ [fig1; fig2];
          files := files empty_world
                   ++ [("a.png", fig1); ("b.png", fig2)];
          savefig_outcome := savefig_outcome empty_world |},
       Ok tt)
    /\ drawn_figure
         (fst (RadarDiagram.draw "a.png" [series_a] labels_a "A"
                                 empty_world))
       = Some fig1
    /\ drawn_figure
         (fst (RadarDiagram.draw "b.png" [series_b; series_a] labels_b "B"
                                 empty_world))
       = Some fig2.
Proof.
  apply (draw_twice_independent
           "a.png" "b.png" [series_a] [series_b; series_a]
           labels_a labels_b "A" "B" empty_world);
    unfold valid_call, valid_input;
    (split; [|split; reflexivity]);
    simpl; repeat split; try lia; repeat constructor.
Defined.

(** X17.  The example data do not fit [draw].  They give one series of
    9 values for 9 spoke labels, and [draw] plots against 28 angles:
    called with the example's series and labels it raises [ValueError]
    and writes no file. *)
Theorem draw_example_data_raises (filename title : string) (w : World) :
  Forall (fun i => length i = length (fst example_data))
         (snd (snd example_data))
  /\ raises ValueError
            (snd (RadarDiagram.draw filename (snd (snd example_data))
                                    (fst example_data) title w))
  /\ files (fst (RadarDiagram.draw filename (snd (snd example_data))
                                   (fst example_data) title w))
     = files w.
Proof.
  split; [repeat constructor|].
  destruct (draw_wrong_length_run
              filename (snd (snd example_data)) (fst example_data) title w 8)
    as [levels [_ H]].
  - discriminate.
  - repeat constructor.
  - lia.
  - rewrite H. cbn [fst snd].
    split; [eexists; reflexivity | simpl; apply app_nil_r].
Qed.

Lemma closed_series_loop (i : list num) (c : string) :
  length i = 28%nat ->
  first_point (closed_series i c) = Some (hd (Float64 0) theta28, hd (Float64 0) i)
  /\ last_point (closed_series i c) = Some (hd (Float64 0) theta28, hd (Float64 0) i)
  /\ length (xdata (closed_series i c)) = 29%nat
  /\ length (ydata (closed_series i c)) = 29%nat.
Proof.
  intros Hi. destruct theta28_ends as [Hlen [H0 _]].
  pose proof (first_hd i 27 Hi) as Hy.
  unfold first_point, last_point, closed_series, theta28_closed.
  cbn [xdata ydata].
  rewrite (first_app theta28 _ _ H0), (first_app i _ _ Hy), !last_app.
  unfold np.append. rewrite !length_app, Hlen, Hi. auto.
Qed.

(** X18.  On valid input every series ends up on the axes as a closed
    loop.  Series [k] is line [k], in colour [colors[k]] ('b', then 'r');
    its y values are the series followed by its first value, its x values
    the 28 angles followed by the first angle, 29 points in all, the last
    the same as the first. *)
Theorem draw_plots_closed_loops (filename : string) (data : list (list num))
        (label : list string) (title : string) (w : World) :
  valid_input data label ->
  exists ax,
    drawn_axes (fst (RadarDiagram.draw filename data label title w))
    = Some ax
    /\ length (ax_lines ax) = length data
    /\ (forall k i,
           nth_error data k = Some i ->
           exists line c,
             nth_error (ax_lines ax) k = Some line
             /\ nth_error RadarDiagram.colors k = Some c
             /\ color line = c
             /\ xdata line = theta28 ++ [hd (Float64 0) theta28]
             /\ ydata line = i ++ [hd (Float64 0) i]
             /\ length (xdata line) = 29%nat
             /\ length (ydata line) = 29%nat
             /\ first_point line = Some (hd (Float64 0) theta28, hd (Float64 0) i)
             /\ last_point line = first_point line).
Proof.
  intros Hvalid.
  destruct (draw_axes_valid data label Hvalid) as [levels [_ Hrun]].
  destruct Hvalid as [[Hlo Hhi] [Hrows _]].
  rewrite draw_run, Hrun. cbv zeta. cbn [fst].
  rewrite drawn_axes_after. eexists. split; [reflexivity|].
  cbn [ax_lines drawn]. unfold plotted_lines.
  destruct data as [|s1 [|s2 [|s3 rest]]]; simpl in Hlo, Hhi; try lia.
  - inversion Hrows as [|? ? H1 _]; subst.
    split; [reflexivity|].
    intros [|k] i Hk; [|destruct k; discriminate].
    injection Hk as <-.
    destruct (closed_series_loop s1 "b" H1) as [Hf [Hl [Hx Hy]]].
    exists (closed_series s1 "b"), "b". rewrite Hl, Hf.
    repeat split; assumption.
  - inversion Hrows as [|? ? H1 Hr2]; subst.
    inversion Hr2 as [|? ? H2 _]; subst.
    split; [reflexivity|].
    intros [|[|k]] i Hk; [| |destruct k; discriminate].
    + injection Hk as <-.
      destruct (closed_series_loop s1 "b" H1) as [Hf [Hl [Hx Hy]]].
      exists (closed_series s1 "b"), "b". rewrite Hl, Hf.
      repeat split; assumption.
    + injection Hk as <-.
      destruct (closed_series_loop s2 "r" H2) as [Hf [Hl [Hx Hy]]].
      exists (closed_series s2 "r"), "r". rewrite Hl, Hf.
      repeat split; assumption.
Qed.

Lemma draw_plots_closed_loops_witness :
  exists ax,
    drawn_axes (fst (RadarDiagram.draw "radar.png" [series_a; series_b]
                                       labels_a "title" empty_world))
    = Some ax
    /\ length (ax_lines ax) = length [series_a; series_b]
    /\ (forall k i,
           nth_error [series_a; series_b] k = Some i ->
           exists line c,
             nth_error (ax_lines ax) k = Some line
             /\ nth_error RadarDiagram.colors k = Some c
             /\ color line = c
             /\ xdata line = theta28 ++ [hd (Float64 0) theta28]
             /\ ydata line = i ++ [hd (Float64 0) i]
             /\ length (xdata line) = 29%nat
             /\ length (ydata line) = 29%nat
             /\ first_point line = Some (hd (Float64 0) theta28, hd (Float64 0) i)
             /\ last_point line = first_point line).
Proof.
  apply (draw_plots_closed_loops "radar.png" [series_a; series_b] labels_a
                                 "title" empty_world).
  unfold valid_input. simpl. repeat split; try lia; repeat constructor.
Defined.
